(** * Architutor: the prompt chain of [app.py]

    A shallow embedding of the Streamlit script [src/app.py]: the Model
    Gateway [get_ai_response], the four stage functions, the start-up
    configuration of the model handle and the top-level script (button
    handler and display block).

    The script is effectful Python.  It is embedded in a state-and-exception
    monad over a [World] that holds
    - the chronological trace of everything the script does to the outside
      (Streamlit elements, entries into the Gateway, outbound model calls);
    - the one slot of [st.session_state] the script uses.

    A Python exception is represented by its [str()], which is all the
    script ever looks at ([f"...{e}"]); only exceptions of class [Exception]
    are modelled, the ones [except Exception] catches. *)

From Stdlib Require Import String Ascii List Bool Lia.
Import ListNotations.
Open Scope string_scope.
Open Scope list_scope.

Set Implicit Arguments.

(** String concatenation, kept apart from list append. *)
Infix "+:+" := String.append (at level 60, right associativity).

(** ** Python strings *)

Module PyString.

(** The two characters a Rocq literal cannot hold directly. *)
Definition nl : string := String "010"%char EmptyString.
Definition dq : string := String "034"%char EmptyString.

(** [sub in s] on Python [str]: [sub] occurs in [s] as a contiguous
    substring. *)
Fixpoint str_in (sub s : string) : bool :=
  if prefix sub s then true
  else match s with
       | EmptyString => false
       | String _ s' => str_in sub s'
       end.

(** Truth value of a [str]: only the empty string is falsy. *)
Definition truthy_str (s : string) : bool :=
  match s with
  | EmptyString => false
  | String _ _ => true
  end.

End PyString.
Import PyString.

(** ** Python values held by the session slot and passed to the stages *)

Inductive pyval : Type :=
| PyNone
| PyStr (s : string).

Definition truthy (v : pyval) : bool :=
  match v with
  | PyNone => false
  | PyStr s => truthy_str s
  end.

(** [f"{v}"] *)
Definition py_format (v : pyval) : string :=
  match v with
  | PyNone => "None"
  | PyStr s => s
  end.

(** ** Results of fallible Python code *)

Inductive pyresult (A : Type) : Type :=
| Ret (a : A)
| Raise (e : string).
Arguments Ret {A} a.
Arguments Raise {A} e.

(** ** The outside world *)

(** What [response = ai_model.generate_content(prompt)] hands back;
    reading [response.text] can itself raise. *)
Record Response : Type := { text : pyresult string }.

(** The hosted model.  Its answer may depend on the prompts it was sent
    before, so that every sequence of answers is covered. *)
Record Model : Type :=
  { generate_content : list string -> string -> pyresult Response }.

(** Everything the script lets the outside observe, in order. *)
Inductive Event : Type :=
| StError (msg : string)
| StSuccess (msg : string)
| StWarning (msg : string)
| StSetPageConfig (layout page_title : string)
| StTitle (body : string)
| StHeader (body : string)
| StSubheader (body : string)
| StMarkdown (body : string)
| StTextArea (label : string)
| StButton (label : string)
| StSpinner (msg : string)
| GatewayCall (prompt : string)   (* entry into [get_ai_response] *)
| ModelCall (prompt : string).    (* [ai_model.generate_content(prompt)] *)

Record World : Type :=
  { trace : list Event;
    (* [st.session_state]: [None] when the key 'analysis_result' is absent *)
    analysis_result : option pyval }.

Definition emit_event (e : Event) (w : World) : World :=
  {| trace := trace w ++ [e]; analysis_result := analysis_result w |}.

Definition gateway_prompt (e : Event) : option string :=
  match e with GatewayCall p => Some p | _ => None end.

Definition model_prompt (e : Event) : option string :=
  match e with ModelCall p => Some p | _ => None end.

Fixpoint filter_map {A B} (f : A -> option B) (l : list A) : list B :=
  match l with
  | [] => []
  | x :: l' => match f x with
               | Some y => y :: filter_map f l'
               | None => filter_map f l'
               end
  end.

(** Prompts handed to the Gateway, and prompts sent to the hosted model. *)
Definition gateway_calls (tr : list Event) : list string :=
  filter_map gateway_prompt tr.
Definition model_calls (tr : list Event) : list string :=
  filter_map model_prompt tr.

(** ** The monad of the script *)

Definition M (A : Type) : Type := World -> pyresult A * World.

Definition ret {A} (a : A) : M A := fun w => (Ret a, w).

Definition bind {A B} (m : M A) (f : A -> M B) : M B :=
  fun w => match m w with
           | (Ret a, w') => f a w'
           | (Raise e, w') => (Raise e, w')
           end.

Definition raise {A} (e : string) : M A := fun w => (Raise e, w).

Definition lift {A} (r : pyresult A) : M A := fun w => (r, w).

(** [try: body / except Exception as e: handler] *)
Definition try_except {A} (body : M A) (handler : string -> M A) : M A :=
  fun w => match body w with
           | (Ret a, w') => (Ret a, w')
           | (Raise e, w') => handler e w'
           end.

Definition emit (e : Event) : M unit := fun w => (Ret tt, emit_event e w).

Declare Scope py_scope.
Delimit Scope py_scope with py.
Notation "x <- m ;; k" := (bind m (fun x => k))
  (at level 61, m at next level, right associativity) : py_scope.
Notation "m ;; k" := (bind m (fun _ => k))
  (at level 61, right associativity) : py_scope.
Open Scope py_scope.

(** ** Streamlit and Python primitives *)

Definition st_error (msg : string) : M unit := emit (StError msg).
Definition st_success (msg : string) : M unit := emit (StSuccess msg).
Definition st_warning (msg : string) : M unit := emit (StWarning msg).
Definition st_title (s : string) : M unit := emit (StTitle s).
Definition st_header (s : string) : M unit := emit (StHeader s).
Definition st_subheader (s : string) : M unit := emit (StSubheader s).
Definition st_markdown (s : string) : M unit := emit (StMarkdown s).

(** [with st.spinner(msg): body] *)
Definition with_spinner {A} (msg : string) (body : M A) : M A :=
  emit (StSpinner msg) ;; body.

(** [sub in v]: a [TypeError] unless [v] is a [str]. *)
Definition py_in (sub : string) (v : pyval) : M bool :=
  match v with
  | PyStr s => ret (str_in sub s)
  | PyNone => raise "argument of type 'NoneType' is not iterable"
  end.

(** [st.session_state['analysis_result']] *)
Definition session_get : M pyval :=
  fun w => match analysis_result w with
           | Some v => (Ret v, w)
           | None => (Raise "'analysis_result'", w)
           end.

(** [st.session_state['analysis_result'] = v] *)
Definition session_set (v : pyval) : M unit :=
  fun w => (Ret tt, {| trace := trace w; analysis_result := Some v |}).

(** ['analysis_result' not in st.session_state] *)
Definition session_missing : M bool :=
  fun w => (Ret (match analysis_result w with None => true | Some _ => false end), w).

(** [ai_model.generate_content(prompt)]: the call leaves the process, and
    the model answers knowing what it was sent so far. *)
Definition model_generate_content (m : Model) (prompt : string) : M Response :=
  fun w => (generate_content m (model_calls (trace w)) prompt,
            emit_event (ModelCall prompt) w).

(** [a or b] and [a and b] in a condition: [b] is only evaluated when [a]
    does not decide. *)
Definition py_or (a : bool) (b : M bool) : M bool :=
  if a then ret true else b.
Definition py_and (a : bool) (b : M bool) : M bool :=
  if a then b else ret false.

(** A multi-line literal, one element per source line. *)
Definition lines (l : list string) : string := String.concat nl l.

(** ** Fixed strings of the script *)

Definition model_unavailable : string := "AI model not available.".
Definition error_prefix : string := "Error getting AI response".

Definition no_transcribed_text : string := "No transcribed text to analyze.".
Definition cannot_case_studies : string :=
  "Cannot generate case studies without a valid AI analysis.".
Definition cannot_critical_thinking : string :=
  "Cannot generate critical thinking prompts without a valid AI analysis.".
Definition cannot_interpret : string :=
  "Cannot interpret abstract concepts without a valid AI analysis.".
Definition analysis_failed : string :=
  "Analysis failed, cannot generate further outputs.".

Definition default_image_info : string :=
  "No specific image information provided.".

(** ** The four prompt templates *)

Definition analysis_prompt (transcribed_text image_info : string) : string :=
  lines
    [ EmptyString;
      "    You are an AI assistant specializing in architectural feedback analysis.";
      "    You have received the following feedback from an instructor regarding a student's architectural work:";
      EmptyString;
      "    " +:+ dq +:+ transcribed_text +:+ dq;
      EmptyString;
      "    The feedback is related to an architectural work described as:";
      "    " +:+ dq +:+ image_info +:+ dq;
      EmptyString;
      "    Please analyze this feedback in the context of architectural principles.";
      "    Identify key points, areas for improvement, and potential strengths mentioned in the feedback.";
      "    Provide a concise summary of the analysis.";
      "    " ].

Definition case_studies_prompt (ai_analysis_text : string) : string :=
  lines
    [ EmptyString;
      "    Based on the following architectural feedback analysis:";
      "    " +:+ dq +:+ ai_analysis_text +:+ dq;
      EmptyString;
      "    Generate relevant illustrated case studies that exemplify the concepts discussed.";
      "    Focus on real-world examples or well-known architectural projects.";
      "    Provide brief explanations for each case study highlighting its relevance to the feedback analysis.";
      "    " ].

Definition critical_thinking_prompt (ai_analysis_text : string) : string :=
  lines
    [ EmptyString;
      "    Based on the following architectural feedback analysis:";
      "    " +:+ dq +:+ ai_analysis_text +:+ dq;
      EmptyString;
      "    Generate critical thinking prompts and brainstorming questions that can help a student deepen their understanding and explore alternative design solutions related to the feedback.";
      "    " ].

Definition abstract_concepts_prompt (ai_analysis_text : string) : string :=
  lines
    [ EmptyString;
      "    Based on the following architectural feedback analysis:";
      "    " +:+ dq +:+ ai_analysis_text +:+ dq;
      EmptyString;
      "    Identify any abstract or complex architectural concepts mentioned or implied, and provide clear, simple interpretations and explanations to aid student understanding and decision-making.";
      "    " ].

(** ** Start-up: the model handle (lines 6-20) *)

(** What the script finds around it when it starts: the secret store and
    the client library. *)
Record Env : Type :=
  { secrets_GOOGLE_API_KEY : pyresult string;     (* [st.secrets["GOOGLE_API_KEY"]] *)
    genai_configure : string -> pyresult unit;    (* [genai.configure(api_key=...)] *)
    genai_GenerativeModel : string -> pyresult Model }.

Definition configure_model (env : Env) : M (option Model) :=
  try_except
    (GOOGLE_API_KEY <- lift (secrets_GOOGLE_API_KEY env) ;;
     if negb (truthy_str GOOGLE_API_KEY) then
       st_error "Google API Key not found. Please set GOOGLE_API_KEY in Streamlit Secrets." ;;
       ret None
     else
       lift (genai_configure env GOOGLE_API_KEY) ;;
       ai_model <- lift (genai_GenerativeModel env "gemini-1.5-flash-latest") ;;
       st_success "Google Generative AI model initialized successfully." ;;
       ret (Some ai_model))
    (fun e =>
       st_error ("Error initializing Google Generative AI model: " +:+ e) ;;
       st_warning "Please ensure your GOOGLE_API_KEY is set correctly in Streamlit Secrets." ;;
       ret None).

(** ** The Gateway and the stages, under the global [ai_model] *)

Section Script.

Variable ai_model : option Model.

(** Lines 23-33.  The [GatewayCall] event records the entry into the
    function; the rest is the source. *)
Definition get_ai_response (prompt : string) : M string :=
  emit (GatewayCall prompt) ;;
  match ai_model with
  | None =>
      st_error "AI model not initialized. Cannot get response." ;;
      ret model_unavailable
  | Some m =>
      try_except
        (response <- model_generate_content m prompt ;;
         lift (text response))
        (fun e =>
           st_error ("Error getting AI response: " +:+ e) ;;
           ret ("Error getting AI response: " +:+ e))
  end.

(** Lines 36-56. *)
Definition analyze_feedback (transcribed_text : pyval) (image_info : string)
  : M string :=
  if negb (truthy transcribed_text) then ret no_transcribed_text
  else get_ai_response
         (analysis_prompt (py_format transcribed_text) image_info).

(** The guard the three downstream stages share:
    [not ai_analysis_text or "AI model not available." in ai_analysis_text]. *)
Definition invalid_analysis (ai_analysis_text : pyval) : M bool :=
  py_or (negb (truthy ai_analysis_text))
        (py_in model_unavailable ai_analysis_text).

(** Lines 59-74. *)
Definition generate_case_studies (ai_analysis_text : pyval) : M string :=
  invalid <- invalid_analysis ai_analysis_text ;;
  if invalid then ret cannot_case_studies
  else get_ai_response (case_studies_prompt (py_format ai_analysis_text)).

(** Lines 77-90. *)
Definition generate_critical_thinking_prompts (ai_analysis_text : pyval)
  : M string :=
  invalid <- invalid_analysis ai_analysis_text ;;
  if invalid then ret cannot_critical_thinking
  else get_ai_response (critical_thinking_prompt (py_format ai_analysis_text)).

(** Lines 93-106. *)
Definition interpret_abstract_concepts (ai_analysis_text : pyval) : M string :=
  invalid <- invalid_analysis ai_analysis_text ;;
  if invalid then ret cannot_interpret
  else get_ai_response (abstract_concepts_prompt (py_format ai_analysis_text)).

(** *** The page (lines 109-165) *)

Definition page_intro : string :=
  lines
    [ EmptyString;
      "This application helps students analyze architectural feedback using AI.";
      "Enter your text feedback below, and the AI will provide a detailed analysis,";
      "relevant case studies, critical thinking prompts, and interpretations of abstract concepts.";
      EmptyString ].

(** Lines 109-120; [st.text_area] returns what the user typed. *)
Definition page_layout (typed : string) : M string :=
  emit (StSetPageConfig "wide" "Architectural Feedback Analyzer") ;;
  st_title "📐 Architectural Feedback Analyzer" ;;
  st_markdown page_intro ;;
  st_header "📝 Enter Your Architectural Feedback" ;;
  emit (StTextArea "Paste your feedback here:") ;;
  ret typed.

(** Lines 123-124. *)
Definition session_init : M unit :=
  missing <- session_missing ;;
  if missing then session_set PyNone else ret tt.

(** Lines 127-131: what a press of the button does. *)
Definition submit (user_feedback_text : string) : M unit :=
  if truthy_str user_feedback_text then
    st_header "🤖 AI Analysis and Insights" ;;
    with_spinner "Analyzing feedback..."
      (analysis_text <- analyze_feedback (PyStr user_feedback_text)
                                         default_image_info ;;
       session_set (PyStr analysis_text))
  else ret tt.

(** Line 126; [st.button] returns whether the button was pressed. *)
Definition analyze_button (user_feedback_text : string) (pressed : bool)
  : M unit :=
  emit (StButton "✨ Analyze Feedback") ;;
  if pressed then submit user_feedback_text else ret tt.

(** Lines 140-159: the three downstream stages, each fed [analysis_text]. *)
Definition downstream_chain (analysis_text : pyval) : M unit :=
  st_markdown "---" ;;
  st_subheader "🏛️ Illustrated Case Studies" ;;
  case_studies_output <-
    with_spinner "Generating case studies..."
      (generate_case_studies analysis_text) ;;
  st_markdown case_studies_output ;;
  st_markdown "---" ;;
  st_subheader "🤔 Critical Thinking Prompts" ;;
  critical_thinking_output <-
    with_spinner "Generating prompts..."
      (generate_critical_thinking_prompts analysis_text) ;;
  st_markdown critical_thinking_output ;;
  st_markdown "---" ;;
  st_subheader "🧠 Interpretations of Abstract Concepts" ;;
  interpretations_output <-
    with_spinner "Interpreting concepts..."
      (interpret_abstract_concepts analysis_text) ;;
  st_markdown interpretations_output.

(** Line 139:
    ["AI model not available." not in analysis_text and
     "Error getting AI response" not in analysis_text]. *)
Definition analysis_succeeded (analysis_text : pyval) : M bool :=
  unavailable <- py_in model_unavailable analysis_text ;;
  py_and (negb unavailable)
         (failed <- py_in error_prefix analysis_text ;; ret (negb failed)).

(** Lines 134-161. *)
Definition display_block : M unit :=
  cached <- session_get ;;
  if truthy cached then
    let analysis_text := cached in
    st_subheader "📊 AI Analysis Result:" ;;
    st_markdown (py_format analysis_text) ;;
    ok <- analysis_succeeded analysis_text ;;
    if ok then downstream_chain analysis_text
    else st_error analysis_failed
  else ret tt.

(** Lines 109-165. *)
Definition page (typed : string) (pressed : bool) : M unit :=
  user_feedback_text <- page_layout typed ;;
  session_init ;;
  analyze_button user_feedback_text pressed ;;
  display_block ;;
  st_markdown "---" ;;
  st_markdown "Built with Streamlit and Google Generative AI.".

End Script.

(** One execution of the whole script: Streamlit runs it from the top on
    every interaction, with the session carried over. *)
Definition script (env : Env) (typed : string) (pressed : bool) : M unit :=
  ai_model <- configure_model env ;;
  page ai_model typed pressed.

(** The world a fresh browser session starts from. *)
Definition fresh : World := {| trace := []; analysis_result := None |}.

(** ** Reading a trace *)

(** The world after some more events. *)
Definition add_events (d : list Event) (w : World) : World :=
  {| trace := trace w ++ d; analysis_result := analysis_result w |}.

(** What the driver treats as a failed analysis (line 139). *)
Definition is_failure (s : string) : bool :=
  str_in model_unavailable s || str_in error_prefix s.

(** What the Gateway answers to [prompt] when the hosted model was sent
    [history] before: the value [get_ai_response] returns
    (lemma [get_ai_response_eq]). *)
Definition gateway_reply (ai_model : option Model) (history : list string)
  (prompt : string) : string :=
  match ai_model with
  | None => model_unavailable
  | Some m =>
      match generate_content m history prompt with
      | Ret response =>
          match text response with
          | Ret t => t
          | Raise e => "Error getting AI response: " +:+ e
          end
      | Raise e => "Error getting AI response: " +:+ e
      end
  end.

(** What the Gateway does besides, after it was entered. *)
Definition gateway_effects (ai_model : option Model) (history : list string)
  (prompt : string) : list Event :=
  match ai_model with
  | None => [StError "AI model not initialized. Cannot get response."]
  | Some m =>
      ModelCall prompt ::
      match generate_content m history prompt with
      | Ret response =>
          match text response with
          | Ret _ => []
          | Raise e => [StError ("Error getting AI response: " +:+ e)]
          end
      | Raise e => [StError ("Error getting AI response: " +:+ e)]
      end
  end.

(** Messages shown by [st.error] and [st.warning]. *)
Definition visible_errors (tr : list Event) : list string :=
  filter_map (fun e => match e with
                       | StError msg | StWarning msg => Some msg
                       | _ => None
                       end) tr.

(** Bodies shown by [st.markdown]. *)
Definition markdowns (tr : list Event) : list string :=
  filter_map (fun e => match e with StMarkdown b => Some b | _ => None end) tr.

(** Once a displayed output is a failure, no Gateway call follows it. *)
Fixpoint halts_after_failure (tr : list Event) : bool :=
  match tr with
  | [] => true
  | StMarkdown out :: rest =>
      (if is_failure out
       then match gateway_calls rest with [] => true | _ :: _ => false end
       else true)
      && halts_after_failure rest
  | _ :: rest => halts_after_failure rest
  end.

(** The three downstream stages, by name. *)
Inductive Downstream : Type := CaseStudies | CriticalThinking | AbstractConcepts.

Definition run_stage (ai_model : option Model) (st : Downstream)
  : pyval -> M string :=
  match st with
  | CaseStudies => generate_case_studies ai_model
  | CriticalThinking => generate_critical_thinking_prompts ai_model
  | AbstractConcepts => interpret_abstract_concepts ai_model
  end.

Definition stage_prompt (st : Downstream) : string -> string :=
  match st with
  | CaseStudies => case_studies_prompt
  | CriticalThinking => critical_thinking_prompt
  | AbstractConcepts => abstract_concepts_prompt
  end.

Definition cannot_proceed (st : Downstream) : string :=
  match st with
  | CaseStudies => cannot_case_studies
  | CriticalThinking => cannot_critical_thinking
  | AbstractConcepts => cannot_interpret
  end.

(** The Gateway calls of a full downstream chain on [r]. *)
Definition downstream_prompts (r : string) : list string :=
  [case_studies_prompt r; critical_thinking_prompt r; abstract_concepts_prompt r].

(** [w'] is [w] after more events, among them exactly the Gateway calls
    [g]; the session slot is untouched. *)
Definition advances (w w' : World) (g : list string) : Prop :=
  exists d, w' = add_events d w /\ gateway_calls d = g.

(** [m] returns from [w], and issues exactly the Gateway calls [g]. *)
Definition does {A} (m : M A) (w : World) (g : list string) : Prop :=
  exists a w', m w = (Ret a, w') /\ advances w w' g.

(** The Gateway calls a run of the display block issues, by what the
    session slot holds. *)
Definition display_prompts (cached : pyval) : list string :=
  match cached with
  | PyStr r =>
      if truthy_str r && negb (is_failure r) then downstream_prompts r else []
  | PyNone => []
  end.

(** The Gateway calls of the button handler. *)
Definition stage1_prompts (typed : string) (pressed : bool) : list string :=
  if pressed && truthy_str typed
  then [analysis_prompt typed default_image_info]
  else [].

(** What the session slot holds once the button handler is through:
    the Gateway's reply to the analysis prompt after an effective submit,
    and what it held before otherwise. *)
Definition cached_after (ai_model : option Model) (typed : string)
  (pressed : bool) (w : World) : pyval :=
  if pressed && truthy_str typed
  then PyStr (gateway_reply ai_model (model_calls (trace w))
                (analysis_prompt typed default_image_info))
  else match analysis_result w with
       | Some v => v
       | None => PyNone
       end.

(** What lines 109-120 put on the page. *)
Definition layout_events : list Event :=
  [StSetPageConfig "wide" "Architectural Feedback Analyzer";
   StTitle "📐 Architectural Feedback Analyzer";
   StMarkdown page_intro;
   StHeader "📝 Enter Your Architectural Feedback";
   StTextArea "Paste your feedback here:"].

(** The Gateway calls of [w'] are those of [w] followed by [g]. *)
Definition issues (w w' : World) (g : list string) : Prop :=
  gateway_calls (trace w') = gateway_calls (trace w) ++ g.

(** ** The events of a run, written out *)

(** What the hosted model is sent by one Gateway call. *)
Definition sent (ai_model : option Model) (prompt : string) : list string :=
  match ai_model with
  | Some _ => [prompt]
  | None => []
  end.

Definition stage_title (st : Downstream) : string :=
  match st with
  | CaseStudies => "🏛️ Illustrated Case Studies"
  | CriticalThinking => "🤔 Critical Thinking Prompts"
  | AbstractConcepts => "🧠 Interpretations of Abstract Concepts"
  end.

Definition stage_spinner (st : Downstream) : string :=
  match st with
  | CaseStudies => "Generating case studies..."
  | CriticalThinking => "Generating prompts..."
  | AbstractConcepts => "Interpreting concepts..."
  end.

(** One downstream stage on the page: separator, heading, spinner, the
    Gateway at work, the output. *)
Definition stage_events (ai_model : option Model) (history : list string)
  (st : Downstream) (r : string) : list Event :=
  [StMarkdown "---"; StSubheader (stage_title st); StSpinner (stage_spinner st);
   GatewayCall (stage_prompt st r)] ++
  gateway_effects ai_model history (stage_prompt st r) ++
  [StMarkdown (gateway_reply ai_model history (stage_prompt st r))].

(** Lines 140-159 on a usable analysis [r]. *)
Definition chain_events (ai_model : option Model) (history : list string)
  (r : string) : list Event :=
  stage_events ai_model history CaseStudies r ++
  stage_events ai_model
    (history ++ sent ai_model (case_studies_prompt r)) CriticalThinking r ++
  stage_events ai_model
    (history ++ sent ai_model (case_studies_prompt r)
             ++ sent ai_model (critical_thinking_prompt r)) AbstractConcepts r.

(** Lines 134-161, by what the slot holds. *)
Definition display_events (ai_model : option Model) (history : list string)
  (cached : pyval) : list Event :=
  match cached with
  | PyStr r =>
      if truthy_str r then
        [StSubheader "📊 AI Analysis Result:"; StMarkdown r] ++
        (if is_failure r then [StError analysis_failed]
         else chain_events ai_model history r)
      else []
  | PyNone => []
  end.

(** Lines 126-131. *)
Definition button_events (ai_model : option Model) (history : list string)
  (typed : string) (pressed : bool) : list Event :=
  StButton "✨ Analyze Feedback" ::
  (if pressed && truthy_str typed then
     [StHeader "🤖 AI Analysis and Insights";
      StSpinner "Analyzing feedback...";
      GatewayCall (analysis_prompt typed default_image_info)] ++
     gateway_effects ai_model history (analysis_prompt typed default_image_info)
   else []).

Definition footer_events : list Event :=
  [StMarkdown "---";
   StMarkdown "Built with Streamlit and Google Generative AI."].

(** Lines 109-165 from a world whose hosted model was sent [history]. *)
Definition page_events (ai_model : option Model) (typed : string)
  (pressed : bool) (w : World) : list Event :=
  let history := model_calls (trace w) in
  layout_events ++
  button_events ai_model history typed pressed ++
  display_events ai_model
    (history ++ if pressed && truthy_str typed
                then sent ai_model (analysis_prompt typed default_image_info)
                else [])
    (cached_after ai_model typed pressed w) ++
  footer_events.

(** The handle lines 6-20 leave in [ai_model]. *)
Definition configured (env : Env) : option Model :=
  match secrets_GOOGLE_API_KEY env with
  | Raise _ => None
  | Ret key =>
      if truthy_str key then
        match genai_configure env key with
        | Raise _ => None
        | Ret _ =>
            match genai_GenerativeModel env "gemini-1.5-flash-latest" with
            | Raise _ => None
            | Ret m => Some m
            end
        end
      else None
  end.

(** What lines 6-20 show. *)
Definition config_events (env : Env) : list Event :=
  let failed e :=
    [StError ("Error initializing Google Generative AI model: " +:+ e);
     StWarning "Please ensure your GOOGLE_API_KEY is set correctly in Streamlit Secrets."] in
  match secrets_GOOGLE_API_KEY env with
  | Raise e => failed e
  | Ret key =>
      if truthy_str key then
        match genai_configure env key with
        | Raise e => failed e
        | Ret _ =>
            match genai_GenerativeModel env "gemini-1.5-flash-latest" with
            | Raise e => failed e
            | Ret _ =>
                [StSuccess "Google Generative AI model initialized successfully."]
            end
        end
      else
        [StError "Google API Key not found. Please set GOOGLE_API_KEY in Streamlit Secrets."]
  end.

(** A user's visit: the successive executions of the script, each with
    what the user typed and whether the button was pressed. *)
Record Interaction : Type :=
  { around : Env; typed_text : string; button_pressed : bool }.

Fixpoint visit (steps : list Interaction) (w : World) : World :=
  match steps with
  | [] => w
  | i :: rest =>
      visit rest (snd (script (around i) (typed_text i) (button_pressed i) w))
  end.

(** The fixed text around the input in each downstream prompt. *)
Definition stage_prefix : string :=
  lines [ EmptyString;
          "    Based on the following architectural feedback analysis:";
          "    " ] +:+ dq.

Definition stage_suffix (st : Downstream) : string :=
  dq +:+ nl +:+
  match st with
  | CaseStudies =>
      lines [ EmptyString;
              "    Generate relevant illustrated case studies that exemplify the concepts discussed.";
              "    Focus on real-world examples or well-known architectural projects.";
              "    Provide brief explanations for each case study highlighting its relevance to the feedback analysis.";
              "    " ]
  | CriticalThinking =>
      lines [ EmptyString;
              "    Generate critical thinking prompts and brainstorming questions that can help a student deepen their understanding and explore alternative design solutions related to the feedback.";
              "    " ]
  | AbstractConcepts =>
      lines [ EmptyString;
              "    Identify any abstract or complex architectural concepts mentioned or implied, and provide clear, simple interpretations and explanations to aid student understanding and decision-making.";
              "    " ]
  end.

(** ** Fixtures for the concrete runs *)

Module Fixtures.

(** A hosted model that always answers. *)
Definition steady : Model :=
  {| generate_content := fun _ _ => Ret {| text := Ret "A sound analysis." |} |}.

(** A hosted model that answers [n] calls and fails from then on. *)
Definition flaky (n : nat) : Model :=
  {| generate_content := fun history _ =>
       if Nat.ltb (List.length history) n then Ret {| text := Ret "A sound analysis." |}
       else Raise "boom" |}.

(** A deployment with its credential in place. *)
Definition deployed (m : Model) : Env :=
  {| secrets_GOOGLE_API_KEY := Ret "key";
     genai_configure := fun _ => Ret tt;
     genai_GenerativeModel := fun _ => Ret m |}.

(** A session whose slot already holds [v]. *)
Definition cached (v : pyval) : World :=
  {| trace := []; analysis_result := Some v |}.

End Fixtures.

(** The fixed text before the feedback in the analysis prompt, and what
    follows the feedback. *)
Definition analysis_prefix : string :=
  lines [ EmptyString;
          "    You are an AI assistant specializing in architectural feedback analysis.";
          "    You have received the following feedback from an instructor regarding a student's architectural work:";
          EmptyString;
          "    " ] +:+ dq.

Definition analysis_rest (image_info : string) : string :=
  dq +:+ nl +:+
  lines [ EmptyString;
          "    The feedback is related to an architectural work described as:";
          "    " +:+ dq +:+ image_info +:+ dq;
          EmptyString;
          "    Please analyze this feedback in the context of architectural principles.";
          "    Identify key points, areas for improvement, and potential strengths mentioned in the feedback.";
          "    Provide a concise summary of the analysis.";
          "    " ].

(** In these events the hosted model is sent what the Gateway was handed. *)
Definition mirrored (ai_model : option Model) (d : list Event) : Prop :=
  model_calls d = flat_map (sent ai_model) (gateway_calls d).

(** A hosted model that quotes an error message in its answer. *)
Definition quoting : Model :=
  {| generate_content := fun _ _ =>
       Ret {| text := Ret "The log line Error getting AI response is the instructor's." |} |}.

(** A hosted model that answers with the empty string. *)
Definition mute : Model :=
  {| generate_content := fun _ _ => Ret {| text := Ret EmptyString |} |}.

(** Three executions of the script: a submit, an edit of the text without
    a press, a press on empty text. *)
Definition three_steps : list Interaction :=
  [ {| around := Fixtures.deployed Fixtures.steady;
       typed_text := "The plan lacks hierarchy."; button_pressed := true |};
    {| around := Fixtures.deployed Fixtures.steady;
       typed_text := "The plan lacks"; button_pressed := false |};
    {| around := Fixtures.deployed Fixtures.steady;
       typed_text := EmptyString; button_pressed := true |} ].

(** * Properties *)

Arguments analysis_prompt : simpl never.
Arguments case_studies_prompt : simpl never.
Arguments critical_thinking_prompt : simpl never.
Arguments abstract_concepts_prompt : simpl never.
Arguments page_intro : simpl never.
Arguments gateway_reply : simpl never.
Arguments gateway_effects : simpl never.

(** ** Strings *)

Lemma prefix_append (a b : string) : prefix a (a +:+ b) = true.
Proof.
  induction a as [|c a IH]; simpl.
  - now destruct b.
  - destruct (ascii_dec c c) as [_|n]; [exact IH | now elim n].
Qed.

Lemma prefix_split (a s : string) :
  prefix a s = true -> exists b, s = a +:+ b.
Proof.
  revert s; induction a as [|c a IH]; intros s H.
  - now exists s.
  - destruct s as [|c' s]; simpl in H; [discriminate|].
    destruct (ascii_dec c c') as [->|_]; [|discriminate].
    destruct (IH _ H) as [b ->]. now exists b.
Qed.

Lemma str_in_unfold (sub s : string) :
  str_in sub s =
  if prefix sub s then true
  else match s with
       | EmptyString => false
       | String _ s' => str_in sub s'
       end.
Proof. now destruct s. Qed.

(** [str_in] is the substring test. *)
Lemma str_in_spec (sub s : string) :
  str_in sub s = true <-> exists a b, s = a +:+ sub +:+ b.
Proof.
  split.
  - induction s as [|c s IH]; rewrite str_in_unfold;
      match goal with |- context [prefix sub ?t] => destruct (prefix sub t) eqn:E end;
      try discriminate.
    + intros _. destruct (prefix_split _ _ E) as [b Hb].
      now exists EmptyString, b.
    + intros _. destruct (prefix_split _ _ E) as [b Hb].
      now exists EmptyString, b.
    + intros H. destruct (IH H) as (a & b & ->).
      now exists (String c a), b.
  - intros (a & b & ->). induction a as [|c a IH].
    + rewrite str_in_unfold. simpl. now rewrite prefix_append.
    + rewrite str_in_unfold.
      destruct (prefix sub _); [reflexivity | exact IH].
Qed.

(** A string that contains a non-empty one is truthy. *)
Lemma str_in_truthy (c : ascii) (sub s : string) :
  str_in (String c sub) s = true -> truthy_str s = true.
Proof. destruct s; [discriminate | reflexivity]. Qed.

Lemma str_in_append (sub rest : string) : str_in sub (sub +:+ rest) = true.
Proof. rewrite str_in_unfold. now rewrite prefix_append. Qed.

(** Every string the Gateway builds in its [except] branch is a failure
    for the driver. *)
Lemma error_reply_is_failure (e : string) :
  str_in error_prefix ("Error getting AI response: " +:+ e) = true.
Proof. exact (str_in_append error_prefix (": " +:+ e)). Qed.

(** ** Traces *)

Lemma filter_map_app {A B} (f : A -> option B) (l1 l2 : list A) :
  filter_map f (l1 ++ l2) = filter_map f l1 ++ filter_map f l2.
Proof.
  induction l1 as [|x l1 IH]; simpl; [reflexivity|].
  destruct (f x); simpl; now rewrite IH.
Qed.

Lemma gateway_calls_app (l1 l2 : list Event) :
  gateway_calls (l1 ++ l2) = gateway_calls l1 ++ gateway_calls l2.
Proof. apply filter_map_app. Qed.

Lemma model_calls_app (l1 l2 : list Event) :
  model_calls (l1 ++ l2) = model_calls l1 ++ model_calls l2.
Proof. apply filter_map_app. Qed.

Lemma add_events_nil (w : World) : add_events [] w = w.
Proof. destruct w; unfold add_events; simpl. now rewrite app_nil_r. Qed.

Lemma add_events_app (d1 d2 : list Event) (w : World) :
  add_events d2 (add_events d1 w) = add_events (d1 ++ d2) w.
Proof. unfold add_events; simpl. now rewrite app_assoc. Qed.

Lemma gateway_effects_quiet ai_model history prompt :
  gateway_calls (gateway_effects ai_model history prompt) = [].
Proof.
  unfold gateway_effects. destruct ai_model as [m|]; [|reflexivity].
  destruct (generate_content m history prompt) as [[[t|e]]|e]; reflexivity.
Qed.

(** ** The Gateway *)

(** [get_ai_response] always returns: its value is [gateway_reply], its
    effects are the entry event followed by [gateway_effects]. *)
Lemma get_ai_response_eq ai_model prompt w :
  get_ai_response ai_model prompt w =
  (Ret (gateway_reply ai_model (model_calls (trace w)) prompt),
   add_events (GatewayCall prompt ::
               gateway_effects ai_model (model_calls (trace w)) prompt) w).
Proof.
  unfold get_ai_response, gateway_reply, gateway_effects, add_events.
  destruct ai_model as [m|]; unfold bind, emit, st_error, emit, ret; simpl.
  - unfold try_except, bind, model_generate_content, lift; simpl.
    rewrite model_calls_app; simpl; rewrite app_nil_r.
    destruct (generate_content m (model_calls (trace w)) prompt)
      as [[[t|e]]|e]; unfold emit_event; simpl;
      rewrite <- ?app_assoc; reflexivity.
  - unfold emit_event; simpl. rewrite <- app_assoc; reflexivity.
Qed.

(** ** Sequencing *)

Lemma bind_eq {A B} (m : M A) (f : A -> M B) (w w1 : World) (a : A) :
  m w = (Ret a, w1) -> bind m f w = f a w1.
Proof. unfold bind. now intros ->. Qed.
Arguments bind_eq {A B m} f {w w1 a} _.

Lemma bind_assoc {A B C} (m : M A) (f : A -> M B) (g : B -> M C) (w : World) :
  bind (bind m f) g w = bind m (fun x => bind (f x) g) w.
Proof. unfold bind. destruct (m w) as [[a|e] w1]; reflexivity. Qed.

Lemma emit_eq (e : Event) (w : World) : emit e w = (Ret tt, add_events [e] w).
Proof. reflexivity. Qed.

Lemma advances_refl (w : World) : advances w w [].
Proof. exists []. now rewrite add_events_nil. Qed.

Lemma advances_trans (w1 w2 w3 : World) (g1 g2 : list string) :
  advances w1 w2 g1 -> advances w2 w3 g2 -> advances w1 w3 (g1 ++ g2).
Proof.
  intros (d1 & -> & <-) (d2 & -> & <-). exists (d1 ++ d2).
  now rewrite add_events_app, gateway_calls_app.
Qed.

Lemma advances_gateway_calls (w w' : World) (g : list string) :
  advances w w' g ->
  gateway_calls (trace w') = gateway_calls (trace w) ++ g /\
  analysis_result w' = analysis_result w.
Proof.
  intros (d & -> & <-). simpl. now rewrite gateway_calls_app.
Qed.

Lemma does_bind {A B} (m : M A) (f : A -> M B) (w : World) (g1 g2 : list string) :
  does m w g1 -> (forall a w1, does (f a) w1 g2) -> does (bind m f) w (g1 ++ g2).
Proof.
  intros (a & w1 & Hm & H1) Hf. destruct (Hf a w1) as (b & w2 & Hb & H2).
  exists b, w2. split.
  - now rewrite (bind_eq f Hm).
  - eapply advances_trans; eassumption.
Qed.

Lemma advances_event (e : Event) (w : World) :
  gateway_prompt e = None -> advances w (add_events [e] w) [].
Proof.
  intros He. exists [e]. split; [reflexivity|].
  unfold gateway_calls; simpl. now rewrite He.
Qed.

Lemma does_emit (e : Event) (w : World) :
  gateway_prompt e = None -> does (emit e) w [].
Proof.
  intros He. exists tt, (add_events [e] w). split; [reflexivity|].
  now apply advances_event.
Qed.

Lemma does_get_ai_response ai_model prompt w :
  does (get_ai_response ai_model prompt) w [prompt].
Proof.
  eexists _, _. split; [apply get_ai_response_eq|].
  eexists. split; [reflexivity|].
  unfold gateway_calls; simpl. fold (gateway_calls
    (gateway_effects ai_model (model_calls (trace w)) prompt)).
  now rewrite gateway_effects_quiet.
Qed.

(** ** The downstream stages *)

Lemma invalid_analysis_eq (s : string) (w : World) :
  invalid_analysis (PyStr s) w =
  (Ret (negb (truthy_str s) || str_in model_unavailable s), w).
Proof.
  unfold invalid_analysis, py_or, py_in, ret, truthy.
  destruct (truthy_str s); reflexivity.
Qed.

Lemma invalid_analysis_none (w : World) : invalid_analysis PyNone w = (Ret true, w).
Proof. reflexivity. Qed.

(** Each stage is its guard followed by one Gateway call on its prompt. *)
Lemma run_stage_eq ai_model st s w :
  run_stage ai_model st (PyStr s) w =
  if negb (truthy_str s) || str_in model_unavailable s
  then (Ret (cannot_proceed st), w)
  else get_ai_response ai_model (stage_prompt st s) w.
Proof.
  destruct st; simpl;
    unfold generate_case_studies, generate_critical_thinking_prompts,
      interpret_abstract_concepts;
    rewrite (bind_eq _ (invalid_analysis_eq s w));
    now destruct (negb (truthy_str s) || str_in model_unavailable s).
Qed.

Lemma run_stage_none ai_model st w :
  run_stage ai_model st PyNone w = (Ret (cannot_proceed st), w).
Proof. destruct st; reflexivity. Qed.

Lemma does_run_stage ai_model st s w :
  truthy_str s = true -> str_in model_unavailable s = false ->
  does (run_stage ai_model st (PyStr s)) w [stage_prompt st s].
Proof.
  intros Ht Hs. destruct (does_get_ai_response ai_model (stage_prompt st s) w)
    as (a & w' & E & H).
  exists a, w'. split; [|exact H].
  now rewrite run_stage_eq, Ht, Hs.
Qed.

(** The chain on a usable analysis: three Gateway calls, in order. *)
Lemma does_downstream_chain ai_model s w :
  truthy_str s = true -> str_in model_unavailable s = false ->
  does (downstream_chain ai_model (PyStr s)) w (downstream_prompts s).
Proof.
  intros Ht Hs.
  unfold downstream_chain, with_spinner, st_markdown, st_subheader.
  change (generate_case_studies ai_model) with (run_stage ai_model CaseStudies).
  change (generate_critical_thinking_prompts ai_model)
    with (run_stage ai_model CriticalThinking).
  change (interpret_abstract_concepts ai_model)
    with (run_stage ai_model AbstractConcepts).
  pose proof (fun st w => @does_run_stage ai_model st s w Ht Hs) as Hstage.
  unfold downstream_prompts.
  repeat match goal with
         | |- does (bind (emit ?e) _) _ ?g =>
             apply does_bind with (g1 := []) (g2 := g);
             [apply does_emit; reflexivity | intros ? ?]
         | |- does (bind (bind _ _) _) _ (?p :: ?g) =>
             apply does_bind with (g1 := [p]) (g2 := g);
             [apply does_bind with (g1 := []) (g2 := [p]);
              [apply does_emit; reflexivity | intros ? ?; apply Hstage]
             | intros ? ?]
         | |- does (emit _) _ _ => apply does_emit; reflexivity
         end.
Qed.

(** ** The display block *)

Lemma analysis_succeeded_eq (s : string) (w : World) :
  analysis_succeeded (PyStr s) w = (Ret (negb (is_failure s)), w).
Proof.
  unfold analysis_succeeded, is_failure, py_in, py_and, bind, ret.
  destruct (str_in model_unavailable s); reflexivity.
Qed.

Lemma session_get_eq (w : World) (v : pyval) :
  analysis_result w = Some v -> session_get w = (Ret v, w).
Proof. unfold session_get. now intros ->. Qed.

(** Nothing cached, or an empty string: the block does nothing. *)
Lemma display_block_idle ai_model v w :
  analysis_result w = Some v -> truthy v = false ->
  display_block ai_model w = (Ret tt, w).
Proof.
  intros Hw Hv. unfold display_block.
  rewrite (bind_eq _ (session_get_eq w Hw)). now rewrite Hv.
Qed.

(** A failed analysis is shown, followed by one error and nothing else. *)
Lemma display_block_failed ai_model s w :
  analysis_result w = Some (PyStr s) -> is_failure s = true ->
  display_block ai_model w =
  (Ret tt, add_events [StSubheader "📊 AI Analysis Result:";
                       StMarkdown s;
                       StError analysis_failed] w).
Proof.
  intros Hw Hf. unfold display_block.
  rewrite (bind_eq _ (session_get_eq w Hw)).
  assert (Ht : truthy (PyStr s) = true).
  { unfold is_failure in Hf. apply orb_true_iff in Hf as [H|H];
      exact (str_in_truthy _ _ _ H). }
  rewrite Ht. unfold st_subheader, st_markdown, st_error.
  rewrite !(bind_eq _ (emit_eq _ _)).
  rewrite (bind_eq _ (analysis_succeeded_eq s _)), Hf. simpl.
  rewrite emit_eq, !add_events_app. reflexivity.
Qed.

(** A usable analysis is shown and the chain runs on it. *)
Lemma display_block_chain ai_model s w :
  analysis_result w = Some (PyStr s) ->
  truthy_str s = true -> is_failure s = false ->
  exists w', display_block ai_model w = (Ret tt, w') /\
             advances w w' (downstream_prompts s).
Proof.
  intros Hw Ht Hf. unfold display_block.
  rewrite (bind_eq _ (session_get_eq w Hw)).
  change (truthy (PyStr s)) with (truthy_str s). rewrite Ht.
  unfold st_subheader, st_markdown.
  rewrite !(bind_eq _ (emit_eq _ _)).
  rewrite (bind_eq _ (analysis_succeeded_eq s _)), Hf. simpl negb. cbv iota.
  apply orb_false_elim in Hf as [Hu _].
  destruct (@does_downstream_chain ai_model s
              (add_events [StMarkdown (py_format (PyStr s))]
                 (add_events [StSubheader "📊 AI Analysis Result:"] w)) Ht Hu)
    as ([] & w' & E & H).
  exists w'. split; [exact E|].
  destruct H as (d & -> & Hd).
  exists ([StSubheader "📊 AI Analysis Result:"; StMarkdown s] ++ d). split.
  - now rewrite !add_events_app.
  - rewrite gateway_calls_app. exact Hd.
Qed.

Lemma display_block_run ai_model v w :
  analysis_result w = Some v ->
  exists w', display_block ai_model w = (Ret tt, w') /\
             advances w w' (display_prompts v).
Proof.
  intros Hw. destruct v as [|s].
  - exists w. split; [now apply display_block_idle with PyNone|apply advances_refl].
  - unfold display_prompts. destruct (truthy_str s) eqn:Ht; cbv beta iota.
    + destruct (is_failure s) eqn:Hf; cbn [andb negb].
      * eexists. split; [exact (@display_block_failed ai_model s w Hw Hf)|].
        eexists. split; reflexivity.
      * now apply display_block_chain.
    + exists w. split; [now apply display_block_idle with (PyStr s)|apply advances_refl].
Qed.

(** ** The button *)

Lemma submit_empty_eq ai_model w : submit ai_model EmptyString w = (Ret tt, w).
Proof. reflexivity. Qed.

(** A submit of some text: one Gateway call on the analysis prompt, whose
    reply replaces whatever the session slot held. *)
Lemma submit_eq ai_model typed w :
  truthy_str typed = true ->
  let p := analysis_prompt typed default_image_info in
  let history := model_calls (trace w) in
  submit ai_model typed w =
  (Ret tt,
   {| trace := trace w ++
               [StHeader "🤖 AI Analysis and Insights";
                StSpinner "Analyzing feedback...";
                GatewayCall p] ++ gateway_effects ai_model history p;
      analysis_result := Some (PyStr (gateway_reply ai_model history p)) |}).
Proof.
  intros Ht p history. unfold submit, with_spinner, st_header, analyze_feedback.
  rewrite Ht. change (truthy (PyStr typed)) with (truthy_str typed).
  rewrite Ht. simpl negb. cbv iota.
  rewrite !(bind_eq _ (emit_eq _ _)).
  rewrite (bind_eq _ (get_ai_response_eq _ _ _)).
  unfold session_set, add_events; simpl.
  rewrite !model_calls_app; simpl. rewrite !app_nil_r.
  rewrite <- !app_assoc. reflexivity.
Qed.

(** ** A whole run *)

Lemma advances_issues (w w' : World) (g : list string) :
  advances w w' g -> issues w w' g.
Proof. intros H. exact (proj1 (advances_gateway_calls H)). Qed.

Lemma page_layout_eq (typed : string) (w : World) :
  page_layout typed w = (Ret typed, add_events layout_events w).
Proof.
  unfold page_layout, st_title, st_markdown, st_header, layout_events.
  rewrite !(bind_eq _ (emit_eq _ _)). unfold ret.
  now rewrite !add_events_app.
Qed.

Lemma session_init_eq (w : World) :
  session_init w =
  (Ret tt, {| trace := trace w;
              analysis_result := Some match analysis_result w with
                                      | Some v => v
                                      | None => PyNone
                                      end |}).
Proof.
  unfold session_init, session_missing, session_set, bind, ret.
  destruct w as [tr [v|]]; reflexivity.
Qed.

(** The button: rendered in every run; an effective submit issues the
    analysis call and overwrites the slot, anything else leaves the slot
    alone and calls nothing. *)
Lemma analyze_button_run ai_model typed pressed w :
  exists w',
    analyze_button ai_model typed pressed w = (Ret tt, w') /\
    analysis_result w' =
      (if pressed && truthy_str typed
       then Some (PyStr (gateway_reply ai_model (model_calls (trace w))
                           (analysis_prompt typed default_image_info)))
       else analysis_result w) /\
    issues w w' (stage1_prompts typed pressed).
Proof.
  unfold analyze_button, stage1_prompts.
  rewrite (bind_eq _ (emit_eq _ _)).
  destruct pressed; cbn [andb].
  - destruct (truthy_str typed) eqn:Ht.
    + eexists. split; [exact (@submit_eq ai_model typed _ Ht)|].
      cbn [analysis_result trace add_events].
      rewrite model_calls_app. cbn [model_calls filter_map model_prompt].
      rewrite app_nil_r. split; [reflexivity|]. unfold issues. cbn [trace].
      rewrite !gateway_calls_app, gateway_effects_quiet. cbn.
      now rewrite app_nil_r.
    + destruct typed; [|discriminate]. eexists. split; [reflexivity|].
      split; [reflexivity|]. unfold issues; cbn. rewrite gateway_calls_app.
      reflexivity.
  - eexists. split; [reflexivity|]. split; [reflexivity|].
    unfold issues; cbn. rewrite gateway_calls_app. reflexivity.
Qed.

(** Lines 109-165 under a given model handle. *)
Lemma page_run ai_model typed pressed w :
  exists w',
    page ai_model typed pressed w = (Ret tt, w') /\
    analysis_result w' = Some (cached_after ai_model typed pressed w) /\
    issues w w' (stage1_prompts typed pressed ++
                 display_prompts (cached_after ai_model typed pressed w)).
Proof.
  unfold page.
  rewrite (bind_eq _ (page_layout_eq typed w)).
  rewrite (bind_eq _ (session_init_eq _)).
  match goal with |- context [bind (analyze_button _ _ _) _ ?w1] =>
    destruct (analyze_button_run ai_model typed pressed w1)
      as (w2 & E2 & S2 & I2)
  end.
  rewrite (bind_eq _ E2).
  assert (Hc : analysis_result w2 = Some (cached_after ai_model typed pressed w)).
  { rewrite S2. unfold cached_after. cbn [trace add_events analysis_result].
    rewrite model_calls_app. cbn. rewrite app_nil_r.
    now destruct (pressed && truthy_str typed). }
  destruct (display_block_run ai_model w2 Hc) as (w3 & E3 & A3).
  rewrite (bind_eq _ E3). unfold st_markdown.
  rewrite (bind_eq _ (emit_eq _ _)), emit_eq.
  eexists. split; [reflexivity|]. split.
  - cbn [analysis_result add_events].
    now rewrite (proj2 (advances_gateway_calls A3)).
  - apply advances_issues in A3. unfold issues in *.
    cbn [trace add_events analysis_result] in *.
    rewrite !gateway_calls_app. cbn. rewrite !app_nil_r.
    rewrite A3, I2, gateway_calls_app. cbn. rewrite app_nil_r.
    now rewrite app_assoc.
Qed.

(** An effective submit whose analysis comes back as a failure: the run
    issues the analysis call and nothing after it. *)
Lemma page_failed_analysis ai_model typed w :
  truthy_str typed = true ->
  let reply := gateway_reply ai_model (model_calls (trace w))
                 (analysis_prompt typed default_image_info) in
  is_failure reply = true ->
  exists w',
    page ai_model typed true w = (Ret tt, w') /\
    analysis_result w' = Some (PyStr reply) /\
    gateway_calls (trace w') =
      gateway_calls (trace w) ++ [analysis_prompt typed default_image_info].
Proof.
  intros Ht reply Hf.
  destruct (page_run ai_model typed true w) as (w' & E & S & I).
  unfold cached_after, stage1_prompts, issues, display_prompts in *.
  cbn [andb] in *. rewrite Ht in *. fold reply in S, I.
  rewrite Hf, andb_false_r in I. exists w'. repeat split; assumption.
Qed.

(** ** Start-up *)

(** The three ways the configuration fails, and the one way it succeeds:
    every failure is an [st.error] and the handle [None]. *)
Lemma configure_model_eq (env : Env) (w : World) :
  configure_model env w =
  let failed e :=
    (Ret None,
     add_events
       [StError ("Error initializing Google Generative AI model: " +:+ e);
        StWarning "Please ensure your GOOGLE_API_KEY is set correctly in Streamlit Secrets."]
       w) in
  match secrets_GOOGLE_API_KEY env with
  | Raise e => failed e
  | Ret key =>
      if truthy_str key then
        match genai_configure env key with
        | Raise e => failed e
        | Ret _ =>
            match genai_GenerativeModel env "gemini-1.5-flash-latest" with
            | Raise e => failed e
            | Ret m =>
                (Ret (Some m),
                 add_events
                   [StSuccess "Google Generative AI model initialized successfully."]
                   w)
            end
        end
      else
        (Ret None,
         add_events
           [StError "Google API Key not found. Please set GOOGLE_API_KEY in Streamlit Secrets."]
           w)
  end.
Proof.
  unfold configure_model, try_except, bind, lift, st_error, st_warning,
    st_success, emit, ret.
  destruct (secrets_GOOGLE_API_KEY env) as [key|e]; cbv zeta.
  - destruct (truthy_str key); cbn [negb].
    + destruct (genai_configure env key) as [[]|e].
      * destruct (genai_GenerativeModel env "gemini-1.5-flash-latest") as [m|e];
          [reflexivity|].
        unfold add_events, emit_event; cbn. now rewrite <- app_assoc.
      * unfold add_events, emit_event; cbn. now rewrite <- app_assoc.
    + reflexivity.
  - unfold add_events, emit_event; cbn. now rewrite <- app_assoc.
Qed.

(** The configuration always returns, and calls neither the Gateway nor
    the hosted model. *)
Lemma configure_model_run (env : Env) (w : World) :
  exists ai_model d,
    configure_model env w = (Ret ai_model, add_events d w) /\
    gateway_calls d = [] /\ model_calls d = [].
Proof.
  rewrite configure_model_eq. cbv zeta.
  destruct (secrets_GOOGLE_API_KEY env) as [key|e].
  - destruct (truthy_str key).
    + destruct (genai_configure env key) as [[]|e].
      * destruct (genai_GenerativeModel env "gemini-1.5-flash-latest") as [m|e];
          eexists _, _; (split; [reflexivity|split; reflexivity]).
      * eexists _, _; (split; [reflexivity|split; reflexivity]).
    + eexists _, _; (split; [reflexivity|split; reflexivity]).
  - eexists _, _; (split; [reflexivity|split; reflexivity]).
Qed.

(** One execution of the script, from any world: it returns, and its
    Gateway calls are the analysis call of an effective submit followed by
    the calls of the display block on what the slot then holds. *)
Lemma script_run (env : Env) (typed : string) (pressed : bool) (w : World) :
  exists ai_model w',
    fst (configure_model env w) = Ret ai_model /\
    script env typed pressed w = (Ret tt, w') /\
    analysis_result w' = Some (cached_after ai_model typed pressed w) /\
    issues w w' (stage1_prompts typed pressed ++
                 display_prompts (cached_after ai_model typed pressed w)).
Proof.
  destruct (configure_model_run env w) as (ai_model & d & E & Hg & Hm).
  destruct (page_run ai_model typed pressed (add_events d w))
    as (w' & E' & S' & I').
  assert (Hc : cached_after ai_model typed pressed (add_events d w) =
               cached_after ai_model typed pressed w).
  { unfold cached_after. cbn [trace analysis_result add_events].
    now rewrite model_calls_app, Hm, app_nil_r. }
  rewrite Hc in *. exists ai_model, w'. split; [now rewrite E|]. split.
  - unfold script. now rewrite (bind_eq _ E).
  - split; [exact S'|]. unfold issues in *. rewrite I'.
    cbn [trace add_events]. now rewrite gateway_calls_app, Hg, app_nil_r.
Qed.

(** * The claims *)

Import Fixtures.

(** C1 (as amended).  In every run of the script the Gateway calls come in
    the order analysis, case studies, critical-thinking prompts,
    abstract-concept interpretation: the analysis call is there exactly
    when the button was pressed on non-empty text, and the three downstream
    calls are there, all three and in that order, exactly when the session
    slot then holds a non-empty result that contains no error sentinel.
    So a failed first stage keeps stages 2-4 from calling the Gateway;
    the three downstream stages are gated on the first-stage result only,
    not on each other's output. *)
Theorem run_gateway_calls_in_order
  (env : Env) (typed : string) (pressed : bool) (w : World) :
  exists ai_model w',
    fst (configure_model env w) = Ret ai_model /\
    script env typed pressed w = (Ret tt, w') /\
    analysis_result w' = Some (cached_after ai_model typed pressed w) /\
    gateway_calls (trace w') =
      gateway_calls (trace w) ++
      (if pressed && truthy_str typed
       then [analysis_prompt typed default_image_info]
       else []) ++
      match cached_after ai_model typed pressed w with
      | PyStr r =>
          if truthy_str r &&
             negb (str_in "AI model not available." r ||
                   str_in "Error getting AI response" r)
          then [case_studies_prompt r;
                critical_thinking_prompt r;
                abstract_concepts_prompt r]
          else []
      | PyNone => []
      end.
Proof.
  destruct (script_run env typed pressed w) as (ai_model & w' & E & R & S & I).
  exists ai_model, w'. repeat split; assumption.
Qed.

(** C1, the claim as stated fails: with a hosted model that answers the
    analysis and fails from then on, the case-study output shown is an
    error string, and the critical-thinking and abstract-concept stages
    still call the Gateway. *)
Lemma stage2_failure_does_not_halt :
  let tr := trace (snd (script (deployed (flaky 1)) "x" true fresh)) in
  markdowns tr =
    [page_intro; "A sound analysis.";
     "---"; "Error getting AI response: boom";
     "---"; "Error getting AI response: boom";
     "---"; "Error getting AI response: boom";
     "---"; "Built with Streamlit and Google Generative AI."] /\
  gateway_calls tr =
    [analysis_prompt "x" default_image_info;
     case_studies_prompt "A sound analysis.";
     critical_thinking_prompt "A sound analysis.";
     abstract_concepts_prompt "A sound analysis."] /\
  halts_after_failure tr = false.
Proof. vm_compute. repeat split. Qed.

(** C2 (as amended).  When the cached first-stage result contains an error
    sentinel, the display block shows that result, then the single error
    "Analysis failed, cannot generate further outputs.", and nothing else:
    no downstream stage runs, no Gateway call is issued and no downstream
    output is displayed. *)
Theorem failed_analysis_display
  (ai_model : option Model) (r : string) (w : World) :
  analysis_result w = Some (PyStr r) ->
  str_in "AI model not available." r = true \/
  str_in "Error getting AI response" r = true ->
  display_block ai_model w =
    (Ret tt,
     add_events [StSubheader "📊 AI Analysis Result:";
                 StMarkdown r;
                 StError "Analysis failed, cannot generate further outputs."]
       w) /\
  gateway_calls (trace (snd (display_block ai_model w))) =
    gateway_calls (trace w).
Proof.
  intros Hw Hr.
  assert (Hf : is_failure r = true) by (now apply orb_true_iff).
  rewrite (display_block_failed ai_model w Hw Hf). split; [reflexivity|].
  cbn [snd trace add_events]. rewrite gateway_calls_app. cbn.
  now rewrite app_nil_r.
Qed.

Lemma failed_analysis_display_witness :
  display_block None (cached (PyStr "AI model not available.")) =
    (Ret tt,
     add_events [StSubheader "📊 AI Analysis Result:";
                 StMarkdown "AI model not available.";
                 StError "Analysis failed, cannot generate further outputs."]
       (cached (PyStr "AI model not available."))) /\
  gateway_calls
    (trace (snd (display_block None (cached (PyStr "AI model not available.")))))
  = gateway_calls (trace (cached (PyStr "AI model not available."))).
Proof.
  apply (@failed_analysis_display None "AI model not available."
           (cached (PyStr "AI model not available."))).
  - reflexivity.
  - left. reflexivity.
Defined.

(** C2, the claim as stated fails: on the result "AI model not available."
    the page shows that result and one error; none of the three
    "cannot ..." strings is displayed. *)
Lemma failed_analysis_shows_no_cannot_proceed :
  let tr := trace (snd (display_block (Some steady)
                          (cached (PyStr "AI model not available.")))) in
  str_in "AI model not available." "AI model not available." = true /\
  tr = [StSubheader "📊 AI Analysis Result:";
        StMarkdown "AI model not available.";
        StError "Analysis failed, cannot generate further outputs."] /\
  markdowns tr = ["AI model not available."].
Proof. vm_compute. repeat split. Qed.

(** C3 (as amended).  For every input string to a downstream stage
    function: when the string is empty or contains
    "AI model not available.", the stage returns its static cannot-proceed
    message and touches nothing (no Gateway call); when it is non-empty and
    contains neither error sentinel, the stage returns and issues exactly
    one Gateway call, on its own prompt built from the string.  (A
    non-empty string that contains only "Error getting AI response" is
    left out of this statement.) *)
Theorem stage_guard
  (ai_model : option Model) (st : Downstream) (s : string) (w : World) :
  if negb (truthy_str s) || str_in "AI model not available." s then
    run_stage ai_model st (PyStr s) w = (Ret (cannot_proceed st), w)
  else if str_in "Error getting AI response" s then
    True
  else
    exists out w',
      run_stage ai_model st (PyStr s) w = (Ret out, w') /\
      gateway_calls (trace w') = gateway_calls (trace w) ++ [stage_prompt st s] /\
      analysis_result w' = analysis_result w.
Proof.
  pose proof (run_stage_eq ai_model st s w) as E.
  change model_unavailable with "AI model not available." in E.
  destruct (negb (truthy_str s) || str_in "AI model not available." s) eqn:G.
  - exact E.
  - destruct (str_in "Error getting AI response" s); [exact I|].
    destruct (does_get_ai_response ai_model (stage_prompt st s) w)
      as (out & w' & Hr & Ha).
    exists out, w'. split; [now rewrite E|].
    exact (advances_gateway_calls Ha).
Qed.

(** C3, the claim as stated fails: the empty string contains neither
    sentinel, and no stage calls the Gateway on it. *)
Lemma empty_input_calls_no_gateway :
  str_in "AI model not available." EmptyString = false /\
  str_in "Error getting AI response" EmptyString = false /\
  generate_case_studies (Some steady) (PyStr EmptyString) fresh =
    (Ret "Cannot generate case studies without a valid AI analysis.", fresh) /\
  generate_critical_thinking_prompts (Some steady) (PyStr EmptyString) fresh =
    (Ret "Cannot generate critical thinking prompts without a valid AI analysis.",
     fresh) /\
  interpret_abstract_concepts (Some steady) (PyStr EmptyString) fresh =
    (Ret "Cannot interpret abstract concepts without a valid AI analysis.", fresh).
Proof. repeat split. Qed.

(** C4 (as amended).  The three failure kinds are not handled alike.  A
    submit of empty input skips the dependent work silently: the handler
    changes nothing and shows nothing.  A missing or unusable credential
    shows an [st.error] at start-up and leaves the handle [None], and the
    Gateway then shows an [st.error] and returns "AI model not available."
    without calling the hosted model.  A failure of the model call shows an
    [st.error] with the returned error string.  In these two cases a
    submit issues the analysis call and the downstream work is skipped. *)
Theorem failure_kinds_handling :
  (forall ai_model w, submit ai_model EmptyString w = (Ret tt, w)) /\
  (forall env w,
     configure_model env w =
     let failed e :=
       (Ret None,
        add_events
          [StError ("Error initializing Google Generative AI model: " +:+ e);
           StWarning "Please ensure your GOOGLE_API_KEY is set correctly in Streamlit Secrets."]
          w) in
     match secrets_GOOGLE_API_KEY env with
     | Raise e => failed e
     | Ret key =>
         if truthy_str key then
           match genai_configure env key with
           | Raise e => failed e
           | Ret _ =>
               match genai_GenerativeModel env "gemini-1.5-flash-latest" with
               | Raise e => failed e
               | Ret m =>
                   (Ret (Some m),
                    add_events
                      [StSuccess "Google Generative AI model initialized successfully."]
                      w)
               end
           end
         else
           (Ret None,
            add_events
              [StError "Google API Key not found. Please set GOOGLE_API_KEY in Streamlit Secrets."]
              w)
     end) /\
  (forall prompt w,
     get_ai_response None prompt w =
     (Ret "AI model not available.",
      add_events [GatewayCall prompt;
                  StError "AI model not initialized. Cannot get response."] w)) /\
  (forall m prompt w,
     get_ai_response (Some m) prompt w =
     let failed e :=
       (Ret ("Error getting AI response: " +:+ e),
        add_events [GatewayCall prompt; ModelCall prompt;
                    StError ("Error getting AI response: " +:+ e)] w) in
     match generate_content m (model_calls (trace w)) prompt with
     | Raise e => failed e
     | Ret response =>
         match text response with
         | Raise e => failed e
         | Ret t => (Ret t, add_events [GatewayCall prompt; ModelCall prompt] w)
         end
     end) /\
  (forall ai_model typed w,
     truthy_str typed = true ->
     let reply := gateway_reply ai_model (model_calls (trace w))
                    (analysis_prompt typed default_image_info) in
     ai_model = None \/ (exists e, reply = "Error getting AI response: " +:+ e) ->
     exists w',
       page ai_model typed true w = (Ret tt, w') /\
       analysis_result w' = Some (PyStr reply) /\
       gateway_calls (trace w') =
         gateway_calls (trace w) ++ [analysis_prompt typed default_image_info]).
Proof.
  split; [exact submit_empty_eq|].
  split; [exact configure_model_eq|].
  split; [intros; now rewrite get_ai_response_eq|].
  split.
  - intros. rewrite get_ai_response_eq.
    unfold gateway_reply, gateway_effects. cbv zeta.
    destruct (generate_content m (model_calls (trace w)) prompt)
      as [[[t|e]]|e]; reflexivity.
  - intros ai_model typed w Ht reply [->|[e He]];
      apply (@page_failed_analysis _ typed w Ht).
    + reflexivity.
    + fold reply. rewrite He. unfold is_failure.
      now rewrite error_reply_is_failure, orb_true_r.
Qed.

Lemma failure_kinds_handling_witness :
  exists w',
    page None "x" true fresh = (Ret tt, w') /\
    analysis_result w' = Some (PyStr "AI model not available.") /\
    gateway_calls (trace w') = [analysis_prompt "x" default_image_info].
Proof.
  destruct failure_kinds_handling as (_ & _ & _ & _ & H).
  apply (H None "x" fresh); [reflexivity | left; reflexivity].
Defined.

(** C4, the claim as stated fails: pressing the button on empty input,
    with the credential in place, shows no error and no warning at all. *)
Lemma empty_submit_shows_no_message :
  visible_errors (trace (snd (script (deployed steady) EmptyString true fresh)))
  = [] /\
  submit (Some steady) EmptyString fresh = (Ret tt, fresh).
Proof. vm_compute. split; reflexivity. Qed.

(** C5.  With the model handle [None], a submit of some text leaves
    exactly "AI model not available." as the first-stage result, and the
    only Gateway call of the run is the analysis call: no downstream stage
    calls the Gateway, and the hosted model is never called. *)
Theorem unavailable_gateway_submit (typed : string) (w : World) :
  truthy_str typed = true ->
  exists w',
    page None typed true w = (Ret tt, w') /\
    analysis_result w' = Some (PyStr "AI model not available.") /\
    gateway_calls (trace w') =
      gateway_calls (trace w) ++ [analysis_prompt typed default_image_info] /\
    trace w' =
      trace w ++ layout_events ++
      [StButton "✨ Analyze Feedback";
       StHeader "🤖 AI Analysis and Insights";
       StSpinner "Analyzing feedback...";
       GatewayCall (analysis_prompt typed default_image_info);
       StError "AI model not initialized. Cannot get response.";
       StSubheader "📊 AI Analysis Result:";
       StMarkdown "AI model not available.";
       StError "Analysis failed, cannot generate further outputs.";
       StMarkdown "---";
       StMarkdown "Built with Streamlit and Google Generative AI."].
Proof.
  intros Ht. unfold page.
  rewrite (bind_eq _ (page_layout_eq typed w)).
  rewrite (bind_eq _ (session_init_eq _)).
  unfold analyze_button. rewrite bind_assoc, (bind_eq _ (emit_eq _ _)).
  rewrite (bind_eq _ (@submit_eq None typed _ Ht)).
  unfold gateway_reply, gateway_effects.
  match goal with |- context [bind (display_block _) _ ?w2] =>
    rewrite (bind_eq _ (@display_block_failed None model_unavailable w2
                          eq_refl eq_refl))
  end.
  unfold st_markdown. rewrite (bind_eq _ (emit_eq _ _)), emit_eq.
  eexists. split; [reflexivity|].
  cbn [analysis_result trace add_events]. split; [reflexivity|].
  rewrite <- !app_assoc. cbn [app]. split; [|reflexivity].
  rewrite !gateway_calls_app. reflexivity.
Qed.

Lemma unavailable_gateway_submit_witness :
  exists w',
    page None "The plan lacks hierarchy." true fresh = (Ret tt, w') /\
    analysis_result w' = Some (PyStr "AI model not available.") /\
    gateway_calls (trace w') =
      gateway_calls (trace fresh) ++
      [analysis_prompt "The plan lacks hierarchy." default_image_info] /\
    trace w' =
      trace fresh ++ layout_events ++
      [StButton "✨ Analyze Feedback";
       StHeader "🤖 AI Analysis and Insights";
       StSpinner "Analyzing feedback...";
       GatewayCall (analysis_prompt "The plan lacks hierarchy." default_image_info);
       StError "AI model not initialized. Cannot get response.";
       StSubheader "📊 AI Analysis Result:";
       StMarkdown "AI model not available.";
       StError "Analysis failed, cannot generate further outputs.";
       StMarkdown "---";
       StMarkdown "Built with Streamlit and Google Generative AI."].
Proof.
  apply (@unavailable_gateway_submit "The plan lacks hierarchy." fresh).
  reflexivity.
Defined.

(** C6.  [get_ai_response] is total: for every model handle, prompt and
    world it returns a string and never raises.  With no handle the string
    is "AI model not available."; when the model call or the reading of
    its text raises, the string is "Error getting AI response: " followed
    by the exception's text; otherwise it is the model's text. *)
Theorem get_ai_response_total
  (ai_model : option Model) (prompt : string) (w : World) :
  exists out w',
    get_ai_response ai_model prompt w = (Ret out, w') /\
    match ai_model with
    | None => out = "AI model not available."
    | Some m =>
        match generate_content m (model_calls (trace w)) prompt with
        | Raise e => out = "Error getting AI response: " +:+ e
        | Ret response =>
            match text response with
            | Raise e => out = "Error getting AI response: " +:+ e
            | Ret t => out = t
            end
        end
    end.
Proof.
  eexists _, _. split; [apply get_ai_response_eq|].
  unfold gateway_reply. destruct ai_model as [m|]; [|reflexivity].
  destruct (generate_content m (model_calls (trace w)) prompt)
    as [[[t|e]]|e]; reflexivity.
Qed.

(** C7.  On empty text the submit action does nothing: it returns at once
    with the world unchanged, so it issues no Gateway call, shows nothing
    and does not write the cached analysis result.  Accordingly a whole run
    on empty text, button pressed or not, leaves the session slot as it
    was (initialised to [None] when absent) and issues no analysis call:
    its only Gateway calls are those of the display block on what the slot
    already held, and none at all from a session without a cached result. *)
Theorem empty_submit_noop :
  (forall ai_model w, submit ai_model EmptyString w = (Ret tt, w)) /\
  (forall env pressed w,
     exists w',
       script env EmptyString pressed w = (Ret tt, w') /\
       let held := match analysis_result w with
                   | Some v => v
                   | None => PyNone
                   end in
       analysis_result w' = Some held /\
       gateway_calls (trace w') = gateway_calls (trace w) ++ display_prompts held) /\
  (forall env pressed,
     exists w',
       script env EmptyString pressed fresh = (Ret tt, w') /\
       analysis_result w' = Some PyNone /\
       gateway_calls (trace w') = []).
Proof.
  split; [exact submit_empty_eq|].
  assert (H : forall env pressed w,
     exists w',
       script env EmptyString pressed w = (Ret tt, w') /\
       analysis_result w' = Some match analysis_result w with
                                 | Some v => v
                                 | None => PyNone
                                 end /\
       gateway_calls (trace w') =
         gateway_calls (trace w) ++
         display_prompts match analysis_result w with
                         | Some v => v
                         | None => PyNone
                         end).
  { intros env pressed w.
    destruct (script_run env EmptyString pressed w)
      as (ai_model & w' & _ & R & S & I).
    exists w'. split; [exact R|].
    unfold cached_after, stage1_prompts, issues in *.
    cbn [truthy_str] in *. rewrite andb_false_r in *. now split. }
  split; [exact H|].
  intros env pressed. destruct (H env pressed fresh) as (w' & R & S & G).
  exists w'. repeat split; assumption.
Qed.

(** C8 (as amended).  For every non-empty first-stage result that contains
    neither error sentinel, the display block runs the downstream chain on
    it: case studies, critical-thinking prompts and abstract-concept
    interpretation are each invoked exactly once, in that order, each on
    the first-stage result, and each issues its one Gateway call. *)
Theorem valid_analysis_runs_chain
  (ai_model : option Model) (r : string) (w : World) :
  analysis_result w = Some (PyStr r) ->
  truthy_str r = true ->
  str_in "AI model not available." r = false ->
  str_in "Error getting AI response" r = false ->
  exists w',
    display_block ai_model w = (Ret tt, w') /\
    display_block ai_model w =
      (st_subheader "📊 AI Analysis Result:" ;;
       st_markdown r ;;
       downstream_chain ai_model (PyStr r)) w /\
    gateway_calls (trace w') =
      gateway_calls (trace w) ++
      [case_studies_prompt r;
       critical_thinking_prompt r;
       abstract_concepts_prompt r] /\
    analysis_result w' = Some (PyStr r).
Proof.
  intros Hw Ht H1 H2.
  assert (Hf : is_failure r = false).
  { unfold is_failure. change model_unavailable with "AI model not available.".
    change error_prefix with "Error getting AI response". now rewrite H1, H2. }
  destruct (display_block_chain ai_model w Hw Ht Hf) as (w' & E & A).
  exists w'. split; [exact E|]. split.
  - unfold display_block.
    rewrite (bind_eq _ (session_get_eq w Hw)).
    change (truthy (PyStr r)) with (truthy_str r). rewrite Ht.
    unfold st_subheader, st_markdown.
    rewrite !(bind_eq _ (emit_eq _ _)).
    now rewrite (bind_eq _ (analysis_succeeded_eq r _)), Hf.
  - destruct (advances_gateway_calls A) as [G S]. split; [exact G|].
    now rewrite S.
Qed.

Lemma valid_analysis_runs_chain_witness :
  exists w',
    display_block (Some steady) (cached (PyStr "A sound analysis.")) = (Ret tt, w') /\
    display_block (Some steady) (cached (PyStr "A sound analysis.")) =
      (st_subheader "📊 AI Analysis Result:" ;;
       st_markdown "A sound analysis." ;;
       downstream_chain (Some steady) (PyStr "A sound analysis."))
        (cached (PyStr "A sound analysis.")) /\
    gateway_calls (trace w') =
      gateway_calls (trace (cached (PyStr "A sound analysis."))) ++
      [case_studies_prompt "A sound analysis.";
       critical_thinking_prompt "A sound analysis.";
       abstract_concepts_prompt "A sound analysis."] /\
    analysis_result w' = Some (PyStr "A sound analysis.").
Proof.
  apply (@valid_analysis_runs_chain (Some steady) "A sound analysis."
           (cached (PyStr "A sound analysis."))); reflexivity.
Defined.

(** C8, the claim as stated fails: the empty string contains neither
    sentinel, and on it the display block does nothing at all; no
    downstream stage is invoked. *)
Lemma empty_analysis_runs_no_stage :
  str_in "AI model not available." EmptyString = false /\
  str_in "Error getting AI response" EmptyString = false /\
  display_block (Some steady) (cached (PyStr EmptyString)) =
    (Ret tt, cached (PyStr EmptyString)).
Proof. repeat split. Qed.

(** C9 (as amended).  For every pair of successive runs in which the
    button is pressed, the second on non-empty text: the second run
    overwrites the cached first-stage result with the new analysis output,
    whatever the first run left there; and when that output is non-empty
    and contains no error sentinel, the full three-stage chain runs again,
    on the new result. *)
Theorem resubmit_overwrites_and_reruns
  (env1 env2 : Env) (typed1 typed2 : string) (w0 : World) :
  truthy_str typed2 = true ->
  let w1 := snd (script env1 typed1 true w0) in
  exists ai_model w2,
    fst (configure_model env2 w1) = Ret ai_model /\
    script env2 typed2 true w1 = (Ret tt, w2) /\
    let r2 := gateway_reply ai_model (model_calls (trace w1))
                (analysis_prompt typed2 default_image_info) in
    analysis_result w2 = Some (PyStr r2) /\
    gateway_calls (trace w2) =
      gateway_calls (trace w1) ++
      analysis_prompt typed2 default_image_info ::
      (if truthy_str r2 &&
          negb (str_in "AI model not available." r2 ||
                str_in "Error getting AI response" r2)
       then [case_studies_prompt r2;
             critical_thinking_prompt r2;
             abstract_concepts_prompt r2]
       else []).
Proof.
  intros Ht w1.
  destruct (script_run env2 typed2 true w1) as (ai_model & w2 & E & R & S & I).
  exists ai_model, w2. split; [exact E|]. split; [exact R|].
  unfold cached_after, stage1_prompts, issues in *.
  cbn [andb] in *. rewrite Ht in *. split; [exact S|exact I].
Qed.

Lemma resubmit_overwrites_and_reruns_witness :
  let w1 := snd (script (deployed steady) "first" true fresh) in
  exists ai_model w2,
    fst (configure_model (deployed steady) w1) = Ret ai_model /\
    script (deployed steady) "second" true w1 = (Ret tt, w2) /\
    let r2 := gateway_reply ai_model (model_calls (trace w1))
                (analysis_prompt "second" default_image_info) in
    analysis_result w2 = Some (PyStr r2) /\
    gateway_calls (trace w2) =
      gateway_calls (trace w1) ++
      analysis_prompt "second" default_image_info ::
      (if truthy_str r2 &&
          negb (str_in "AI model not available." r2 ||
                str_in "Error getting AI response" r2)
       then [case_studies_prompt r2;
             critical_thinking_prompt r2;
             abstract_concepts_prompt r2]
       else []).
Proof.
  apply (@resubmit_overwrites_and_reruns (deployed steady) (deployed steady)
           "first" "second" fresh).
  reflexivity.
Defined.

(** C9, the claim as stated fails: when the hosted model fails on the
    second submit, the cached result is overwritten with the error string
    and the second run issues the analysis call only; the downstream chain
    does not run again. *)
Lemma failed_resubmit_runs_no_chain :
  let w1 := snd (script (deployed (flaky 4)) "first" true fresh) in
  let w2 := snd (script (deployed (flaky 4)) "second" true w1) in
  analysis_result w1 = Some (PyStr "A sound analysis.") /\
  gateway_calls (trace w1) =
    [analysis_prompt "first" default_image_info;
     case_studies_prompt "A sound analysis.";
     critical_thinking_prompt "A sound analysis.";
     abstract_concepts_prompt "A sound analysis."] /\
  analysis_result w2 = Some (PyStr "Error getting AI response: boom") /\
  gateway_calls (trace w2) =
    gateway_calls (trace w1) ++ [analysis_prompt "second" default_image_info].
Proof. vm_compute. repeat split. Qed.

(** C10.  On an empty or otherwise falsy transcribed text,
    [analyze_feedback] returns exactly "No transcribed text to analyze."
    and leaves the world as it was: no prompt is built and the Gateway is
    not entered. *)
Theorem analyze_feedback_falsy
  (ai_model : option Model) (transcribed_text : pyval) (image_info : string)
  (w : World) :
  truthy transcribed_text = false ->
  analyze_feedback ai_model transcribed_text image_info w =
    (Ret "No transcribed text to analyze.", w).
Proof.
  intros H. unfold analyze_feedback. now rewrite H.
Qed.

Lemma analyze_feedback_falsy_witness :
  analyze_feedback (Some steady) (PyStr EmptyString) default_image_info fresh =
    (Ret "No transcribed text to analyze.", fresh) /\
  analyze_feedback (Some steady) PyNone default_image_info fresh =
    (Ret "No transcribed text to analyze.", fresh).
Proof.
  split.
  - apply (@analyze_feedback_falsy (Some steady) (PyStr EmptyString)
             default_image_info fresh). reflexivity.
  - apply (@analyze_feedback_falsy (Some steady) PyNone
             default_image_info fresh). reflexivity.
Defined.

(** * Further properties *)

(** ** The events of a run *)

Lemma gateway_effects_sent ai_model history prompt :
  filter_map model_prompt (gateway_effects ai_model history prompt) =
  sent ai_model prompt.
Proof.
  unfold gateway_effects, sent. destruct ai_model as [m|]; [|reflexivity].
  destruct (generate_content m history prompt) as [[[t|e]]|e]; reflexivity.
Qed.

Lemma gateway_effects_silent ai_model history prompt :
  filter_map gateway_prompt (gateway_effects ai_model history prompt) = [].
Proof. apply gateway_effects_quiet. Qed.

Lemma run_stage_exact ai_model st r w :
  truthy_str r = true -> str_in model_unavailable r = false ->
  run_stage ai_model st (PyStr r) w =
  (Ret (gateway_reply ai_model (model_calls (trace w)) (stage_prompt st r)),
   add_events (GatewayCall (stage_prompt st r) ::
               gateway_effects ai_model (model_calls (trace w)) (stage_prompt st r))
     w).
Proof.
  intros Ht Hu. rewrite run_stage_eq, Ht, Hu. apply get_ai_response_eq.
Qed.

Ltac history_norm :=
  cbn [trace add_events];
  unfold model_calls;
  repeat first [ rewrite !filter_map_app
               | rewrite !gateway_effects_sent
               | progress cbn [filter_map model_prompt app] ];
  rewrite ?app_nil_r, <- ?app_assoc.

Lemma downstream_chain_exact ai_model r w :
  truthy_str r = true -> str_in model_unavailable r = false ->
  downstream_chain ai_model (PyStr r) w =
  (Ret tt, add_events (chain_events ai_model (model_calls (trace w)) r) w).
Proof.
  intros Ht Hu.
  unfold downstream_chain, with_spinner, st_markdown, st_subheader.
  change (generate_case_studies ai_model) with (run_stage ai_model CaseStudies).
  change (generate_critical_thinking_prompts ai_model)
    with (run_stage ai_model CriticalThinking).
  change (interpret_abstract_concepts ai_model)
    with (run_stage ai_model AbstractConcepts).
  rewrite !(bind_eq _ (emit_eq _ _)), bind_assoc, (bind_eq _ (emit_eq _ _)).
  rewrite (bind_eq _ (@run_stage_exact ai_model CaseStudies r _ Ht Hu)).
  rewrite !add_events_app. history_norm.
  rewrite !(bind_eq _ (emit_eq _ _)), bind_assoc, (bind_eq _ (emit_eq _ _)).
  rewrite (bind_eq _ (@run_stage_exact ai_model CriticalThinking r _ Ht Hu)).
  rewrite !add_events_app. history_norm.
  rewrite !(bind_eq _ (emit_eq _ _)), bind_assoc, (bind_eq _ (emit_eq _ _)).
  rewrite (bind_eq _ (@run_stage_exact ai_model AbstractConcepts r _ Ht Hu)).
  rewrite emit_eq, !add_events_app. history_norm.
  unfold chain_events, stage_events, model_calls.
  cbn [stage_title stage_spinner stage_prompt].
  rewrite <- !app_assoc. cbn [app]. reflexivity.
Qed.

Lemma display_block_exact ai_model v w :
  analysis_result w = Some v ->
  display_block ai_model w =
  (Ret tt, add_events (display_events ai_model (model_calls (trace w)) v) w).
Proof.
  intros Hw. unfold display_events. destruct v as [|r].
  - rewrite add_events_nil. now apply display_block_idle with PyNone.
  - destruct (truthy_str r) eqn:Ht.
    + destruct (is_failure r) eqn:Hf.
      * now apply display_block_failed.
      * unfold display_block.
        rewrite (bind_eq _ (session_get_eq w Hw)).
        change (truthy (PyStr r)) with (truthy_str r). rewrite Ht.
        unfold st_subheader, st_markdown.
        rewrite !(bind_eq _ (emit_eq _ _)).
        rewrite (bind_eq _ (analysis_succeeded_eq r _)), Hf. cbn [negb].
        apply orb_false_elim in Hf as [Hu _].
        rewrite (@downstream_chain_exact ai_model r _ Ht Hu).
        rewrite !add_events_app. history_norm. reflexivity.
    + rewrite add_events_nil. now apply display_block_idle with (PyStr r).
Qed.

Lemma analyze_button_exact ai_model typed pressed w :
  analyze_button ai_model typed pressed w =
  (Ret tt,
   {| trace := trace w ++
               button_events ai_model (model_calls (trace w)) typed pressed;
      analysis_result :=
        if pressed && truthy_str typed
        then Some (PyStr (gateway_reply ai_model (model_calls (trace w))
                            (analysis_prompt typed default_image_info)))
        else analysis_result w |}).
Proof.
  unfold analyze_button, button_events.
  rewrite (bind_eq _ (emit_eq _ _)).
  destruct pressed; cbn [andb].
  - destruct (truthy_str typed) eqn:Ht.
    + rewrite (@submit_eq ai_model typed _ Ht). history_norm. reflexivity.
    + destruct typed; [reflexivity|discriminate].
  - reflexivity.
Qed.

(** Lines 109-165, event by event. *)
Lemma page_exact ai_model typed pressed w :
  page ai_model typed pressed w =
  (Ret tt,
   {| trace := trace w ++ page_events ai_model typed pressed w;
      analysis_result := Some (cached_after ai_model typed pressed w) |}).
Proof.
  unfold page, page_events.
  rewrite (bind_eq _ (page_layout_eq typed w)).
  rewrite (bind_eq _ (session_init_eq _)).
  rewrite (bind_eq _ (analyze_button_exact _ _ _ _)).
  match goal with |- context [bind (display_block _) _ ?w2] =>
    assert (Hc : analysis_result w2 =
                 Some (cached_after ai_model typed pressed w))
  end.
  { unfold cached_after. cbn [analysis_result trace add_events].
    history_norm. fold (model_calls (trace w)).
    now destruct (pressed && truthy_str typed). }
  rewrite (bind_eq _ (@display_block_exact ai_model _ _ Hc)).
  unfold st_markdown. rewrite (bind_eq _ (emit_eq _ _)), emit_eq.
  clear Hc. unfold add_events, footer_events, button_events, cached_after.
  cbn [trace analysis_result].
  destruct (pressed && truthy_str typed); history_norm;
    rewrite ?app_nil_r; reflexivity.
Qed.

Lemma configure_model_exact (env : Env) (w : World) :
  configure_model env w =
  (Ret (configured env), add_events (config_events env) w).
Proof.
  rewrite configure_model_eq. unfold configured, config_events. cbv zeta.
  destruct (secrets_GOOGLE_API_KEY env) as [key|e]; [|reflexivity].
  destruct (truthy_str key); [|reflexivity].
  destruct (genai_configure env key) as [[]|e]; [|reflexivity].
  now destruct (genai_GenerativeModel env "gemini-1.5-flash-latest").
Qed.

Lemma config_events_calls (env : Env) :
  gateway_calls (config_events env) = [] /\ model_calls (config_events env) = [].
Proof.
  unfold config_events. cbv zeta.
  destruct (secrets_GOOGLE_API_KEY env) as [key|e]; [|now split].
  destruct (truthy_str key); [|now split].
  destruct (genai_configure env key) as [[]|e]; [|now split].
  now destruct (genai_GenerativeModel env "gemini-1.5-flash-latest").
Qed.

(** One execution of the script, event by event. *)
Lemma script_exact (env : Env) (typed : string) (pressed : bool) (w : World) :
  script env typed pressed w =
  (Ret tt,
   {| trace := trace w ++ config_events env ++
               page_events (configured env) typed pressed w;
      analysis_result := Some (cached_after (configured env) typed pressed w) |}).
Proof.
  unfold script. rewrite (bind_eq _ (configure_model_exact env w)).
  rewrite page_exact. unfold page_events, cached_after.
  cbn [trace analysis_result add_events].
  rewrite model_calls_app, (proj2 (config_events_calls env)), app_nil_r.
  now rewrite <- app_assoc.
Qed.

(** ** What a run calls *)

Lemma flat_sent (ai_model : option Model) (g : list string) :
  flat_map (sent ai_model) g = match ai_model with Some _ => g | None => [] end.
Proof.
  destruct ai_model as [m|]; induction g as [|p g IH]; cbn; congruence.
Qed.

Lemma mirrored_app ai_model d1 d2 :
  mirrored ai_model d1 -> mirrored ai_model d2 -> mirrored ai_model (d1 ++ d2).
Proof.
  unfold mirrored. intros H1 H2.
  now rewrite model_calls_app, gateway_calls_app, flat_map_app, H1, H2.
Qed.

Lemma mirrored_call ai_model history prompt :
  mirrored ai_model (GatewayCall prompt :: gateway_effects ai_model history prompt).
Proof.
  unfold mirrored, model_calls, gateway_calls. cbn [filter_map gateway_prompt model_prompt].
  rewrite gateway_effects_sent, gateway_effects_silent. cbn. now rewrite app_nil_r.
Qed.

Lemma mirrored_stage ai_model history st r :
  mirrored ai_model (stage_events ai_model history st r) /\
  gateway_calls (stage_events ai_model history st r) = [stage_prompt st r].
Proof.
  unfold stage_events. split.
  - change ([StMarkdown "---"; StSubheader (stage_title st);
             StSpinner (stage_spinner st); GatewayCall (stage_prompt st r)] ++
            gateway_effects ai_model history (stage_prompt st r) ++
            [StMarkdown (gateway_reply ai_model history (stage_prompt st r))])
      with ([StMarkdown "---"; StSubheader (stage_title st);
             StSpinner (stage_spinner st)] ++
            (GatewayCall (stage_prompt st r) ::
             gateway_effects ai_model history (stage_prompt st r)) ++
            [StMarkdown (gateway_reply ai_model history (stage_prompt st r))]).
    apply mirrored_app; [reflexivity|].
    apply mirrored_app; [apply mirrored_call | reflexivity].
  - rewrite !gateway_calls_app, gateway_effects_quiet. reflexivity.
Qed.

Lemma mirrored_chain ai_model history r :
  mirrored ai_model (chain_events ai_model history r) /\
  gateway_calls (chain_events ai_model history r) = downstream_prompts r.
Proof.
  unfold chain_events. split.
  - apply mirrored_app; [apply mirrored_stage|].
    apply mirrored_app; apply mirrored_stage.
  - rewrite !gateway_calls_app.
    now rewrite !(proj2 (mirrored_stage _ _ _ _)).
Qed.

Lemma mirrored_display ai_model history v :
  mirrored ai_model (display_events ai_model history v) /\
  gateway_calls (display_events ai_model history v) = display_prompts v.
Proof.
  unfold display_events, display_prompts. destruct v as [|r]; [now split|].
  destruct (truthy_str r); [|now split].
  destruct (is_failure r); cbn [andb negb]; [now split|]. split.
  - apply mirrored_app; [reflexivity | apply mirrored_chain].
  - rewrite gateway_calls_app. exact (proj2 (mirrored_chain _ _ _)).
Qed.

Lemma mirrored_button ai_model history typed pressed :
  mirrored ai_model (button_events ai_model history typed pressed) /\
  gateway_calls (button_events ai_model history typed pressed) =
    stage1_prompts typed pressed.
Proof.
  unfold button_events, stage1_prompts.
  destruct (pressed && truthy_str typed); [|now split]. split.
  - change (mirrored ai_model
      ([StButton "✨ Analyze Feedback";
        StHeader "🤖 AI Analysis and Insights";
        StSpinner "Analyzing feedback..."] ++
       GatewayCall (analysis_prompt typed default_image_info) ::
       gateway_effects ai_model history
         (analysis_prompt typed default_image_info))).
    apply mirrored_app; [reflexivity | apply mirrored_call].
  - unfold gateway_calls. cbn [filter_map gateway_prompt app].
    now rewrite gateway_effects_silent.
Qed.

Lemma mirrored_page ai_model typed pressed w :
  mirrored ai_model (page_events ai_model typed pressed w) /\
  gateway_calls (page_events ai_model typed pressed w) =
    stage1_prompts typed pressed ++
    display_prompts (cached_after ai_model typed pressed w).
Proof.
  unfold page_events. cbv zeta. split.
  - apply mirrored_app; [reflexivity|].
    apply mirrored_app; [apply mirrored_button|].
    apply mirrored_app; [apply mirrored_display | reflexivity].
  - rewrite !gateway_calls_app.
    rewrite (proj2 (mirrored_button _ _ _ _)), (proj2 (mirrored_display _ _ _)).
    cbn. now rewrite app_nil_r.
Qed.

Lemma display_prompts_length (v : pyval) : List.length (display_prompts v) <= 3.
Proof.
  unfold display_prompts. destruct v as [|r]; cbn; [lia|].
  destruct (truthy_str r && negb (is_failure r)); cbn; lia.
Qed.

(** The calls of one execution of the script. *)
Lemma script_calls (env : Env) (typed : string) (pressed : bool) (w : World) :
  exists g,
    gateway_calls (trace (snd (script env typed pressed w))) =
      gateway_calls (trace w) ++ g /\
    model_calls (trace (snd (script env typed pressed w))) =
      model_calls (trace w) ++
      match configured env with Some _ => g | None => [] end /\
    List.length g <= 4.
Proof.
  rewrite script_exact. cbn [snd trace].
  destruct (mirrored_page (configured env) typed pressed w) as [Hm Hg].
  destruct (config_events_calls env) as [Cg Cm].
  eexists. rewrite !gateway_calls_app, !model_calls_app, Cg, Cm, Hm, Hg, flat_sent.
  cbn [app]. repeat split.
  rewrite length_app. pose proof (display_prompts_length
    (cached_after (configured env) typed pressed w)).
  unfold stage1_prompts. destruct (pressed && truthy_str typed); cbn; lia.
Qed.

(** X1.  In every run the hosted model is sent exactly the prompts handed
    to the Gateway, once each and in the same order, when start-up left a
    handle, and nothing when it left none; a run hands the Gateway at most
    four prompts.  No call is retried or repeated. *)
Theorem model_sent_what_gateway_got
  (env : Env) (typed : string) (pressed : bool) (w : World) :
  exists w' g,
    script env typed pressed w = (Ret tt, w') /\
    gateway_calls (trace w') = gateway_calls (trace w) ++ g /\
    model_calls (trace w') =
      model_calls (trace w) ++
      match configured env with Some _ => g | None => [] end /\
    List.length g <= 4.
Proof.
  destruct (script_calls env typed pressed w) as (g & Hg & Hm & Hl).
  rewrite script_exact in Hg, Hm. cbn [snd] in Hg, Hm.
  eexists _, g. split; [apply script_exact|]. repeat split; assumption.
Qed.

(** X10.  Over a whole visit the Gateway is handed at most four prompts
    per execution of the script, and the hosted model is sent at most as
    many: the calls of a visit of [n] runs number at most [4 * n]. *)
Theorem visit_calls_bounded (steps : list Interaction) (w : World) :
  List.length (gateway_calls (trace (visit steps w))) <=
    List.length (gateway_calls (trace w)) + 4 * List.length steps /\
  List.length (model_calls (trace (visit steps w))) <=
    List.length (model_calls (trace w)) + 4 * List.length steps.
Proof.
  revert w. induction steps as [|i steps IH]; intros w; cbn [visit List.length].
  - lia.
  - destruct (script_calls (around i) (typed_text i) (button_pressed i) w)
      as (g & Hg & Hm & Hl).
    destruct (IH (snd (script (around i) (typed_text i) (button_pressed i) w)))
      as [IHg IHm].
    rewrite Hg, Hm, !length_app in *.
    destruct (configured (around i)); cbn [List.length] in *; lia.
Qed.

(** ** What a run shows *)

Lemma markdowns_app (d1 d2 : list Event) :
  markdowns (d1 ++ d2) = markdowns d1 ++ markdowns d2.
Proof. apply filter_map_app. Qed.

Lemma markdowns_effects ai_model history prompt :
  markdowns (gateway_effects ai_model history prompt) = [].
Proof.
  unfold gateway_effects. destruct ai_model as [m|]; [|reflexivity].
  destruct (generate_content m history prompt) as [[[t|e]]|e]; reflexivity.
Qed.

Lemma markdowns_stage ai_model history st r :
  markdowns (stage_events ai_model history st r) =
  ["---"; gateway_reply ai_model history (stage_prompt st r)].
Proof.
  unfold stage_events. now rewrite !markdowns_app, markdowns_effects.
Qed.

(** X2.  On a usable analysis the page shows the analysis and then, each
    after a separator, the three stage outputs exactly as the Gateway
    returned them, in the order case studies, critical-thinking prompts,
    abstract concepts; each reply is the hosted model's answer given the
    prompts it was sent before.  An output is shown whether or not it is
    an error string, and nothing is shown in between. *)
Theorem downstream_outputs_shown
  (ai_model : option Model) (r : string) (w : World) :
  analysis_result w = Some (PyStr r) ->
  truthy_str r = true ->
  str_in "AI model not available." r = false ->
  str_in "Error getting AI response" r = false ->
  exists d,
    display_block ai_model w = (Ret tt, add_events d w) /\
    let h := model_calls (trace w) in
    let p1 := case_studies_prompt r in
    let p2 := critical_thinking_prompt r in
    let p3 := abstract_concepts_prompt r in
    markdowns d =
      [r;
       "---"; gateway_reply ai_model h p1;
       "---"; gateway_reply ai_model (h ++ sent ai_model p1) p2;
       "---"; gateway_reply ai_model (h ++ sent ai_model p1 ++ sent ai_model p2) p3].
Proof.
  intros Hw Ht H1 H2.
  assert (Hf : is_failure r = false).
  { unfold is_failure. change model_unavailable with "AI model not available.".
    change error_prefix with "Error getting AI response". now rewrite H1, H2. }
  eexists. split; [exact (display_block_exact ai_model w Hw)|].
  unfold display_events, chain_events. rewrite Ht, Hf. cbv zeta.
  rewrite !markdowns_app, !markdowns_stage. reflexivity.
Qed.

Lemma downstream_outputs_shown_witness :
  exists d,
    display_block (Some (Fixtures.flaky 1))
      (Fixtures.cached (PyStr "A sound analysis.")) =
      (Ret tt, add_events d (Fixtures.cached (PyStr "A sound analysis."))) /\
    markdowns d =
      ["A sound analysis.";
       "---"; "A sound analysis.";
       "---"; "Error getting AI response: boom";
       "---"; "Error getting AI response: boom"].
Proof.
  apply (@downstream_outputs_shown (Some (Fixtures.flaky 1)) "A sound analysis."
           (Fixtures.cached (PyStr "A sound analysis."))); reflexivity.
Defined.


(** X4.  The driver tells a failed analysis from a good one by substring
    only: when the hosted model answers the analysis normally but its text
    contains one of the two sentinels, the answer is cached and shown, the
    page reports "Analysis failed, cannot generate further outputs." and no
    downstream stage runs. *)
Theorem quoted_sentinel_reads_as_failure
  (m : Model) (typed t : string) (w : World) :
  truthy_str typed = true ->
  generate_content m (model_calls (trace w))
    (analysis_prompt typed default_image_info) = Ret {| text := Ret t |} ->
  str_in "AI model not available." t = true \/
  str_in "Error getting AI response" t = true ->
  exists w' d,
    page (Some m) typed true w = (Ret tt, w') /\
    trace w' = trace w ++ d /\
    analysis_result w' = Some (PyStr t) /\
    gateway_calls d = [analysis_prompt typed default_image_info] /\
    model_calls d = [analysis_prompt typed default_image_info] /\
    markdowns d =
      [page_intro; t; "---"; "Built with Streamlit and Google Generative AI."] /\
    visible_errors d = ["Analysis failed, cannot generate further outputs."].
Proof.
  intros Ht Hm Hs.
  assert (Hf : is_failure t = true) by (now apply orb_true_iff).
  assert (Htt : truthy_str t = true).
  { apply orb_true_iff in Hf as [H|H]; exact (str_in_truthy _ _ _ H). }
  eexists _, _. split; [apply page_exact|]. cbn [trace analysis_result].
  split; [reflexivity|].
  unfold page_events, button_events, display_events, cached_after,
    gateway_reply, gateway_effects.
  cbn [andb]. rewrite Ht, Hm. cbn [text]. rewrite Htt, Hf.
  repeat split.
Qed.

Lemma quoted_sentinel_reads_as_failure_witness :
  exists w' d,
    page (Some quoting) "Why is this wrong?" true fresh = (Ret tt, w') /\
    trace w' = trace fresh ++ d /\
    analysis_result w' =
      Some (PyStr "The log line Error getting AI response is the instructor's.") /\
    gateway_calls d = [analysis_prompt "Why is this wrong?" default_image_info] /\
    model_calls d = [analysis_prompt "Why is this wrong?" default_image_info] /\
    markdowns d =
      [page_intro; "The log line Error getting AI response is the instructor's.";
       "---"; "Built with Streamlit and Google Generative AI."] /\
    visible_errors d = ["Analysis failed, cannot generate further outputs."].
Proof.
  apply (@quoted_sentinel_reads_as_failure quoting "Why is this wrong?"
           "The log line Error getting AI response is the instructor's." fresh).
  - reflexivity.
  - reflexivity.
  - right. reflexivity.
Defined.

(** ** The session slot *)

Lemma script_keeps_string (env : Env) (typed : string) (pressed : bool)
  (w : World) (r : string) :
  analysis_result w = Some (PyStr r) ->
  exists r', analysis_result (snd (script env typed pressed w)) = Some (PyStr r').
Proof.
  intros Hw. rewrite script_exact. cbn [snd analysis_result].
  unfold cached_after. rewrite Hw.
  destruct (pressed && truthy_str typed); eexists; reflexivity.
Qed.

(** X5.  The cached analysis is never cleared: once the session slot holds
    a string it holds a string after every further sequence of runs,
    whatever is typed or pressed and whatever fails.  A submit can replace
    the cached result, nothing removes it. *)
Theorem cached_analysis_never_cleared
  (steps : list Interaction) (w : World) (r : string) :
  analysis_result w = Some (PyStr r) ->
  exists r', analysis_result (visit steps w) = Some (PyStr r').
Proof.
  revert w r. induction steps as [|i steps IH]; intros w r Hw.
  - now exists r.
  - cbn [visit].
    destruct (script_keeps_string (around i) (typed_text i) (button_pressed i) w Hw)
      as [r1 H1].
    exact (IH _ r1 H1).
Qed.

Lemma cached_analysis_never_cleared_witness :
  exists r',
    analysis_result
      (visit three_steps (Fixtures.cached (PyStr "An earlier analysis."))) =
    Some (PyStr r').
Proof.
  apply (@cached_analysis_never_cleared three_steps
           (Fixtures.cached (PyStr "An earlier analysis.")) "An earlier analysis.").
  reflexivity.
Defined.

(** X6.  The downstream outputs are not cached: a run in which the button
    is not pressed, started with a usable analysis in the session slot,
    leaves the slot as it is and issues the three downstream Gateway calls
    on the cached analysis again, whatever the text area holds. *)
Theorem rerun_recomputes_downstream
  (env : Env) (typed r : string) (w : World) :
  analysis_result w = Some (PyStr r) ->
  truthy_str r = true ->
  str_in "AI model not available." r = false ->
  str_in "Error getting AI response" r = false ->
  exists w',
    script env typed false w = (Ret tt, w') /\
    analysis_result w' = Some (PyStr r) /\
    gateway_calls (trace w') =
      gateway_calls (trace w) ++
      [case_studies_prompt r;
       critical_thinking_prompt r;
       abstract_concepts_prompt r].
Proof.
  intros Hw Ht H1 H2.
  assert (Hf : is_failure r = false).
  { unfold is_failure. change model_unavailable with "AI model not available.".
    change error_prefix with "Error getting AI response". now rewrite H1, H2. }
  destruct (script_run env typed false w) as (ai_model & w' & _ & R & S & I).
  unfold cached_after, stage1_prompts, issues, display_prompts in *.
  cbn [andb app] in *. rewrite Hw in *. rewrite Ht, Hf in I.
  exists w'. repeat split; assumption.
Qed.

Lemma rerun_recomputes_downstream_witness :
  exists w',
    script (Fixtures.deployed Fixtures.steady) "half an edit" false
      (Fixtures.cached (PyStr "A sound analysis.")) = (Ret tt, w') /\
    analysis_result w' = Some (PyStr "A sound analysis.") /\
    gateway_calls (trace w') =
      gateway_calls (trace (Fixtures.cached (PyStr "A sound analysis."))) ++
      [case_studies_prompt "A sound analysis.";
       critical_thinking_prompt "A sound analysis.";
       abstract_concepts_prompt "A sound analysis."].
Proof.
  apply (@rerun_recomputes_downstream (Fixtures.deployed Fixtures.steady)
           "half an edit" "A sound analysis."
           (Fixtures.cached (PyStr "A sound analysis."))); reflexivity.
Defined.

(** X7.  The display block reads the session slot and never writes it.
    When the key is missing the read raises and nothing is shown; when
    the key is there the block returns, for [None] and for every string,
    with the slot as it was and the earlier events untouched.  The
    initialisation at lines 123-124 is what keeps the script from
    raising. *)
Theorem display_block_reads_slot_only (ai_model : option Model) (w : World) :
  match analysis_result w with
  | None => exists e, display_block ai_model w = (Raise e, w)
  | Some v =>
      exists d,
        display_block ai_model w = (Ret tt, add_events d w) /\
        analysis_result (add_events d w) = Some v
  end.
Proof.
  destruct (analysis_result w) as [v|] eqn:Hw.
  - eexists. split; [exact (display_block_exact ai_model w Hw)|exact Hw].
  - unfold display_block, bind, session_get. rewrite Hw. eexists. reflexivity.
Qed.

(** ** Prompts *)

Lemma append_assoc (a b c : string) : (a +:+ b) +:+ c = a +:+ (b +:+ c).
Proof. induction a as [|x a IH]; cbn; [reflexivity | now rewrite IH]. Qed.

Lemma append_nil_r (a : string) : a +:+ EmptyString = a.
Proof. induction a as [|x a IH]; cbn; [reflexivity | now rewrite IH]. Qed.

Lemma length_append (a b : string) :
  String.length (a +:+ b) = String.length a + String.length b.
Proof. induction a as [|x a IH]; cbn; [reflexivity | now rewrite IH]. Qed.

Lemma append_cancel_l (a x y : string) : a +:+ x = a +:+ y -> x = y.
Proof.
  induction a as [|c a IH]; cbn; intros H; [exact H|].
  injection H as H. exact (IH H).
Qed.

Lemma append_cancel_r (a x y : string) : x +:+ a = y +:+ a -> x = y.
Proof.
  revert y. induction x as [|c x IH]; intros [|c' y] H; cbn in H.
  - reflexivity.
  - apply (f_equal String.length) in H. cbn in H. rewrite length_append in H. lia.
  - apply (f_equal String.length) in H. cbn in H. rewrite length_append in H. lia.
  - injection H as -> H. now rewrite (IH _ H).
Qed.

(** Two strings with a common end: one tail ends with the other. *)
Lemma append_eq_tails (a b x y : string) :
  a +:+ x = b +:+ y -> str_in y x = true \/ str_in x y = true.
Proof.
  revert b. induction a as [|c a IH]; intros [|c' b] H; cbn in H.
  - subst. left. apply str_in_spec. exists EmptyString, EmptyString.
    now rewrite append_nil_r.
  - left. apply str_in_spec. exists (String c' b), EmptyString.
    now rewrite append_nil_r.
  - right. apply str_in_spec. exists (String c a), EmptyString.
    now rewrite append_nil_r.
  - injection H as _ H. exact (IH _ H).
Qed.

Lemma stage_prompt_split (st : Downstream) (r : string) :
  stage_prompt st r = stage_prefix +:+ r +:+ stage_suffix st.
Proof.
  destruct st;
    unfold stage_prompt, case_studies_prompt, critical_thinking_prompt,
      abstract_concepts_prompt, stage_prefix, stage_suffix, lines, nl, dq;
    cbn [String.concat String.append]; rewrite ?append_assoc;
    cbn [String.append]; reflexivity.
Qed.

Lemma stage_suffix_apart (st1 st2 : Downstream) :
  st1 <> st2 -> str_in (stage_suffix st1) (stage_suffix st2) = false.
Proof.
  destruct st1, st2; intros H; try (now elim H); vm_compute; reflexivity.
Qed.

(** X8.  A downstream prompt determines the stage that built it and the
    analysis text it was built from: two stage prompts are equal only for
    the same stage and the same text, so nothing of the text is dropped,
    escaped or normalised on the way to the Gateway. *)
Theorem stage_prompt_injective (st1 st2 : Downstream) (r1 r2 : string) :
  stage_prompt st1 r1 = stage_prompt st2 r2 -> st1 = st2 /\ r1 = r2.
Proof.
  rewrite !stage_prompt_split. intros H. apply append_cancel_l in H.
  assert (Hst : st1 = st2).
  { destruct (append_eq_tails _ _ _ _ H) as [E|E];
      destruct st1, st2; try reflexivity; exfalso;
      rewrite stage_suffix_apart in E by discriminate; discriminate. }
  subst st2. split; [reflexivity|]. exact (append_cancel_r _ _ _ H).
Qed.

Lemma stage_prompt_injective_witness :
  CriticalThinking = CriticalThinking /\ "A sound analysis." = "A sound analysis.".
Proof.
  apply (@stage_prompt_injective CriticalThinking CriticalThinking
           "A sound analysis." "A sound analysis.").
  reflexivity.
Defined.

Lemma analysis_prompt_split (t image_info : string) :
  analysis_prompt t image_info =
  analysis_prefix +:+ t +:+ analysis_rest image_info.
Proof.
  unfold analysis_prompt, analysis_prefix, analysis_rest, lines, nl, dq.
  cbn [String.concat String.append]. rewrite ?append_assoc.
  cbn [String.append]. reflexivity.
Qed.

(** X9.  The analysis prompt determines the feedback text it was built
    from (for a given image description, which the page never varies), and
    it is never the prompt of a downstream stage: the list of Gateway
    prompts of a run tells which stage made each call and on what text. *)
Theorem analysis_prompt_identifies_text :
  (forall image_info t1 t2,
     analysis_prompt t1 image_info = analysis_prompt t2 image_info -> t1 = t2) /\
  (forall t image_info st r, analysis_prompt t image_info <> stage_prompt st r).
Proof.
  split.
  - intros i t1 t2. rewrite !analysis_prompt_split. intros H.
    apply append_cancel_l in H. exact (append_cancel_r _ _ _ H).
  - intros t i st r. rewrite analysis_prompt_split, stage_prompt_split.
    unfold analysis_prefix, stage_prefix, lines, nl, dq.
    cbn [String.concat String.append]. discriminate.
Qed.

(** ** Errors shown *)

Lemma visible_errors_app (d1 d2 : list Event) :
  visible_errors (d1 ++ d2) = visible_errors d1 ++ visible_errors d2.
Proof. apply filter_map_app. Qed.

Lemma visible_errors_answered (m : Model) (history : list string) (prompt : string) :
  (exists t, generate_content m history prompt = Ret {| text := Ret t |}) ->
  visible_errors (gateway_effects (Some m) history prompt) = [].
Proof. intros [t H]. unfold gateway_effects. now rewrite H. Qed.

Lemma visible_errors_stage (m : Model) (history : list string)
  (st : Downstream) (r : string) :
  (exists t, generate_content m history (stage_prompt st r) = Ret {| text := Ret t |}) ->
  visible_errors (stage_events (Some m) history st r) = [].
Proof.
  intros H. unfold stage_events.
  now rewrite !visible_errors_app, (visible_errors_answered _ _ _ H).
Qed.

(** X11.  With a hosted model that answers every call, a submit whose
    analysis is non-empty and holds no sentinel goes through all four
    stages and shows no error and no warning at all. *)
Theorem working_model_shows_no_error (m : Model) (typed : string) (w : World) :
  truthy_str typed = true ->
  (forall history prompt,
     exists t, generate_content m history prompt = Ret {| text := Ret t |}) ->
  let t := gateway_reply (Some m) (model_calls (trace w))
             (analysis_prompt typed default_image_info) in
  truthy_str t = true ->
  str_in "AI model not available." t = false ->
  str_in "Error getting AI response" t = false ->
  exists w' d,
    page (Some m) typed true w = (Ret tt, w') /\
    trace w' = trace w ++ d /\
    analysis_result w' = Some (PyStr t) /\
    gateway_calls d =
      [analysis_prompt typed default_image_info;
       case_studies_prompt t;
       critical_thinking_prompt t;
       abstract_concepts_prompt t] /\
    visible_errors d = [].
Proof.
  intros Ht Hm t Htt H1 H2.
  assert (Hf : is_failure t = false).
  { unfold is_failure. change model_unavailable with "AI model not available.".
    change error_prefix with "Error getting AI response". now rewrite H1, H2. }
  eexists _, _. split; [apply page_exact|]. cbn [trace analysis_result].
  split; [reflexivity|].
  assert (Hc : cached_after (Some m) typed true w = PyStr t).
  { unfold cached_after. cbn [andb]. now rewrite Ht. }
  rewrite Hc. split; [reflexivity|]. split.
  - rewrite (proj2 (mirrored_page (Some m) typed true w)), Hc.
    unfold stage1_prompts, display_prompts. cbn [andb].
    now rewrite Ht, Htt, Hf.
  - unfold page_events, button_events, display_events, chain_events. cbv zeta.
    rewrite Hc. cbn [andb]. rewrite Ht, Htt, Hf.
    rewrite !visible_errors_app, !visible_errors_stage by apply Hm.
    change (visible_errors
              (StButton "✨ Analyze Feedback" ::
               [StHeader "🤖 AI Analysis and Insights";
                StSpinner "Analyzing feedback...";
                GatewayCall (analysis_prompt typed default_image_info)] ++
               gateway_effects (Some m) (model_calls (trace w))
                 (analysis_prompt typed default_image_info)))
      with (visible_errors
              (gateway_effects (Some m) (model_calls (trace w))
                 (analysis_prompt typed default_image_info))).
    now rewrite visible_errors_answered by apply Hm.
Qed.

Lemma working_model_shows_no_error_witness :
  exists w' d,
    page (Some Fixtures.steady) "The plan lacks hierarchy." true fresh = (Ret tt, w') /\
    trace w' = trace fresh ++ d /\
    analysis_result w' = Some (PyStr "A sound analysis.") /\
    gateway_calls d =
      [analysis_prompt "The plan lacks hierarchy." default_image_info;
       case_studies_prompt "A sound analysis.";
       critical_thinking_prompt "A sound analysis.";
       abstract_concepts_prompt "A sound analysis."] /\
    visible_errors d = [].
Proof.
  apply (@working_model_shows_no_error Fixtures.steady
           "The plan lacks hierarchy." fresh); try reflexivity.
  intros history prompt. now exists "A sound analysis.".
Defined.

(** X12.  An empty answer fails silently: when the hosted model answers
    the analysis with the empty string, the empty string is cached, and the
    run shows neither a result nor an error and calls no downstream
    stage. *)
Theorem empty_answer_is_silent (m : Model) (typed : string) (w : World) :
  truthy_str typed = true ->
  generate_content m (model_calls (trace w))
    (analysis_prompt typed default_image_info) = Ret {| text := Ret EmptyString |} ->
  exists w' d,
    page (Some m) typed true w = (Ret tt, w') /\
    trace w' = trace w ++ d /\
    analysis_result w' = Some (PyStr EmptyString) /\
    gateway_calls d = [analysis_prompt typed default_image_info] /\
    markdowns d =
      [page_intro; "---"; "Built with Streamlit and Google Generative AI."] /\
    visible_errors d = [].
Proof.
  intros Ht Hm.
  eexists _, _. split; [apply page_exact|]. cbn [trace analysis_result].
  split; [reflexivity|].
  unfold page_events, button_events, display_events, cached_after,
    gateway_reply, gateway_effects.
  cbn [andb]. rewrite Ht, Hm. cbn [text truthy_str].
  repeat split.
Qed.

Lemma empty_answer_is_silent_witness :
  exists w' d,
    page (Some mute) "The plan lacks hierarchy." true fresh = (Ret tt, w') /\
    trace w' = trace fresh ++ d /\
    analysis_result w' = Some (PyStr EmptyString) /\
    gateway_calls d =
      [analysis_prompt "The plan lacks hierarchy." default_image_info] /\
    markdowns d =
      [page_intro; "---"; "Built with Streamlit and Google Generative AI."] /\
    visible_errors d = [].
Proof.
  apply (@empty_answer_is_silent mute "The plan lacks hierarchy." fresh);
    reflexivity.
Defined.
